(** * JavaLab backend: the compile / execute / cleanup pipeline

    A shallow embedding of [src/backend/server.js].  JavaScript strings are
    sequences of UTF-16 code units, the scratch directory is a finite map
    from entry names to entries, the external toolchain ([javac], [java])
    is an oracle of the environment, and the request handler is a function
    from a request and a world to a response and a world.  The part of
    [runCode] in [src/frontend/script.js] that builds the request and
    presents the response is embedded as the caller of the route. *)

From Stdlib Require Import ZArith NArith Ascii String DecimalString.
From Stdlib Require DecimalZ DecimalPos.
From stdpp Require Import gmap strings list fin_maps.

Local Open Scope Z_scope.

(** ** JavaScript strings *)

Module JS.

(** A JavaScript string: its UTF-16 code units, so that [length] is the
    source's [.length]. *)
Abbreviation jsstring := (list N).

(** An ASCII literal of the source, as code units. *)
Definition js (s : string) : jsstring :=
  N_of_ascii <$> list_ascii_of_string s.

Definition LF : jsstring := [10%N].

Definition quote : jsstring := [34%N].

(** [`${n}`] for an integer: its decimal digits. *)
Definition dec (n : Z) : jsstring :=
  js (NilZero.string_of_int (Z.to_int n)).

Fixpoint startsWith (s t : jsstring) {struct t} : bool :=
  match t, s with
  | [], _ => true
  | a :: t', b :: s' => (a =? b)%N && startsWith s' t'
  | _ :: _, [] => false
  end.

(** [s.includes(t)] *)
Fixpoint includes (s t : jsstring) : bool :=
  startsWith s t ||
  match s with
  | [] => false
  | _ :: s' => includes s' t
  end.

(** The values a parsed JSON body can hold, and [undefined] for an
    absent property.  Only the truthiness of a number is kept. *)
Inductive value :=
| VUndefined
| VNull
| VBool (b : bool)
| VNumber (n : Z)
| VString (s : jsstring)
| VObject.

(** [!v] is [negb (truthy v)]. *)
Definition truthy (v : value) : bool :=
  match v with
  | VUndefined | VNull => false
  | VBool b => b
  | VNumber n => negb (n =? 0)
  | VString s => match s with [] => false | _ => true end
  | VObject => true
  end.

Inductive type_tag := TUndefined | TObject | TBoolean | TNumber | TString.

Definition typeof (v : value) : type_tag :=
  match v with
  | VUndefined => TUndefined
  | VNull | VObject => TObject
  | VBool _ => TBoolean
  | VNumber _ => TNumber
  | VString _ => TString
  end.

(** [a || b] on strings. *)
Definition or_else (a b : jsstring) : jsstring :=
  match a with [] => b | _ => a end.

End JS.
Import JS.

(** ** The regular expressions of the source

    Every pattern of [server.js] is a sequence of one-character classes,
    each taken once, [*] times or [+] times.  The matcher is the
    backtracking, greedy, leftmost one of the language. *)

Module Regex.

Inductive quant := One | Star | Plus.

Record item := Item { cls : N -> bool; qt : quant }.

Abbreviation regex := (list item).

Definition chr (c : N) : item := Item (N.eqb c) One.

(** A literal, every character escaped or plain. *)
Definition lit (s : string) : regex := chr <$> js s.

(** The same literal under the [i] flag: for the ASCII letters of the
    source's patterns, both cases match. *)
Definition fold_case (c : N) : N :=
  if ((97 <=? c) && (c <=? 122))%N then (c - 32)%N else c.

Definition chr_i (c : N) : item :=
  Item (fun d => (fold_case d =? fold_case c)%N) One.

Definition lit_i (s : string) : regex := chr_i <$> js s.

(** [\s]: WhiteSpace and LineTerminator code units. *)
Definition is_space (c : N) : bool :=
  ((9 <=? c) && (c <=? 13) || (c =? 32) || (c =? 160) || (c =? 5760)
   || (8192 <=? c) && (c <=? 8202) || (c =? 8232) || (c =? 8233)
   || (c =? 8239) || (c =? 8287) || (c =? 12288) || (c =? 65279))%N.

(** Greedy repetition of a class, then the continuation [k]; a shorter
    repetition is tried when the continuation fails. *)
Fixpoint star (p : N -> bool) (k : jsstring -> option nat) (s : jsstring)
  : option nat :=
  match s with
  | c :: s' =>
      if p c then
        match star p k s' with
        | Some n => Some (S n)
        | None => k s
        end
      else k s
  | [] => k s
  end.

(** The length of the match of [r] that starts at the head of [s]. *)
Fixpoint match_len (r : regex) (s : jsstring) {struct r} : option nat :=
  match r with
  | [] => Some O
  | it :: r' =>
      match qt it with
      | One =>
          match s with
          | c :: s' => if cls it c then S <$> match_len r' s' else None
          | [] => None
          end
      | Star => star (cls it) (match_len r') s
      | Plus =>
          match s with
          | c :: s' =>
              if cls it c then S <$> star (cls it) (match_len r') s'
              else None
          | [] => None
          end
      end
  end.

(** [r.test(s)] for a regular expression whose [lastIndex] is 0. *)
Fixpoint test (r : regex) (s : jsstring) : bool :=
  match match_len r s with
  | Some _ => true
  | None => match s with [] => false | _ :: s' => test r s' end
  end.

(** [s.replace(r, by)] under the [g] flag, for a pattern that matches
    no empty string.  [skip] counts the code units of a match that are
    still to be dropped. *)
Fixpoint replace_from (r : regex) (by_ : jsstring) (skip : nat)
  (s : jsstring) : jsstring :=
  match s with
  | [] => []
  | c :: s' =>
      match skip with
      | S k => replace_from r by_ k s'
      | O =>
          match match_len r s with
          | Some (S n) => by_ ++ replace_from r by_ n s'
          | _ => c :: replace_from r by_ O s'
          end
      end
  end.

Definition replace (r : regex) (by_ : jsstring) (s : jsstring) : jsstring :=
  replace_from r by_ O s.

End Regex.
Import Regex.

(** ** SecurityFilter and SourceNormalizer *)

(** The array literal of [containsMaliciousCode].  The literals are
    evaluated at every call, so every [test] starts at [lastIndex] 0. *)
Definition dangerousPatterns : list regex :=
  [ lit "Runtime.getRuntime()";
    lit "ProcessBuilder";
    lit "exec(";
    lit "System.exit(";
    lit "Thread.sleep(";
    lit "FileWriter";
    lit "FileOutputStream";
    lit "Socket(";
    lit "ServerSocket(";
    lit "Class.forName";
    lit "javax.script";
    lit "native" ++ [Item is_space One];
    lit "synchronized" ++ [Item is_space Star] ++ lit "(";
    lit "wait(";
    lit "notify(" ].

(** The [for ... of] loop with its early [return true]. *)
Fixpoint first_match (ps : list regex) (code : jsstring) : bool :=
  match ps with
  | [] => false
  | pattern :: ps' => if test pattern code then true else first_match ps' code
  end.

Definition containsMaliciousCode (code : jsstring) : bool :=
  first_match dangerousPatterns code.

Definition wrapper_head : jsstring :=
  js "public class Main {" ++ LF ++
  js "    public static void main(String[] args) {" ++ LF ++
  js "        // User code starts here" ++ LF.

Definition wrapper_tail : jsstring :=
  LF ++
  js "        // User code ends here" ++ LF ++
  js "    }" ++ LF ++
  js "}".

Definition ensureMainClass (code : jsstring) : jsstring :=
  if includes code (js "public class Main") || includes code (js "class Main")
  then code
  else wrapper_head ++ code ++ wrapper_tail.

(** ** Error formatting *)

(** The class [[^:\s]]. *)
Definition path_char (c : N) : bool := negb ((c =? 58)%N || is_space c).

(** [/\/tmp\/[^:\s]+/g] *)
Definition tmp_path : regex := lit "/tmp/" ++ [Item path_char Plus].

Definition cross_mark : jsstring := [10060%N].        (* U+274C *)
Definition warning_sign : jsstring := [9888%N; 65039%N]. (* U+26A0 U+FE0F *)
Definition bullet : jsstring := [8226%N].             (* U+2022 *)
Definition light_bulb : jsstring := [55357%N; 56481%N]. (* U+1F4A1 *)
Definition alarm_clock : jsstring := [9200%N].        (* U+23F0 *)
Definition rule : jsstring := replicate 40 9552%N.    (* U+2550, 40 times *)

Definition format_header : jsstring :=
  cross_mark ++ js " Compilation Failed" ++ LF ++ rule ++ LF ++ LF.

Definition format_tips : jsstring :=
  LF ++ LF ++ light_bulb ++ js " Tips:" ++ LF ++
  bullet ++ js " Check for missing semicolons" ++ LF ++
  bullet ++ js " Ensure braces are balanced" ++ LF ++
  bullet ++ js " Verify variable declarations" ++ LF ++
  bullet ++ js " Check method signatures".

Definition formatCompilationError (error : jsstring) : jsstring :=
  let formattedError := error in
  let formattedError := replace tmp_path (js "Main.java") formattedError in
  let formattedError :=
    replace (lit "Main.java:") (js "Line ")
      (replace (lit_i "warning:") (warning_sign ++ js " Warning:")
         (replace (lit_i "error:") (cross_mark ++ js " Error:")
            formattedError)) in
  format_header ++ formattedError ++ format_tips.

(** ** The scratch directory *)

Module Scratch.

(** An entry of the scratch directory, with its [mtimeMs]: a regular
    file, or a directory ([javac -d] makes one for a package). *)
Inductive entry :=
| File (content : jsstring) (mtimeMs : Z)
| Dir (mtimeMs : Z).

Definition mtime (e : entry) : Z :=
  match e with File _ m => m | Dir m => m end.

End Scratch.
Import Scratch.

(** ** Worlds and computations *)

(** What a request can observe and change: the scratch directory (its
    entries by name), the clock read by [Date.now()], and the commands
    handed to [exec].  The clock moves while a child process is awaited;
    synchronous code takes no time. *)
Record World := mkWorld {
  scratch : gmap jsstring entry;
  clock : Z;
  spawned : list jsstring
}.

(** How a piece of code ends: with a value, with a thrown error (its
    [message]), or never, when it awaits a promise nobody settles. *)
Inductive result (A : Type) :=
| Ok (a : A)
| Throw (message : jsstring)
| Pending.
Arguments Ok {A} a.
Arguments Throw {A} message.
Arguments Pending {A}.

Definition M (A : Type) : Type := World -> result A * World.

Definition ret {A} (a : A) : M A := fun w => (Ok a, w).

Definition bind {A B} (c : M A) (k : A -> M B) : M B :=
  fun w =>
    match c w with
    | (Ok a, w') => k a w'
    | (Throw e, w') => (Throw e, w')
    | (Pending, w') => (Pending, w')
    end.

(** [try { c } catch (error) { h error.message }] *)
Definition try_catch {A} (c : M A) (h : jsstring -> M A) : M A :=
  fun w =>
    match c w with
    | (Throw e, w') => h e w'
    | r => r
    end.

Declare Scope js_scope.
Delimit Scope js_scope with M.
Notation "'let!' x ':=' c 'in' k" := (bind c (fun x => k))
  (at level 10, x name, c at level 100, k at level 200) : js_scope.
Notation "c ';!' k" := (bind c (fun _ => k))
  (at level 100, k at level 200, right associativity) : js_scope.

(** [Date.now()] *)
Definition Date_now : M Z := fun w => (Ok (clock w), w).

(** *** [fs] on the scratch directory *)

Definition existsSync (name : jsstring) : M bool :=
  fun w => (Ok (bool_decide (is_Some (scratch w !! name))), w).

Definition with_scratch (d : gmap jsstring entry) (w : World) : World :=
  mkWorld d (clock w) (spawned w).

(** [unlink(2)]: a missing name and a directory are errors. *)
Definition unlinkSync (name : jsstring) : M unit :=
  fun w =>
    match scratch w !! name with
    | Some (File _ _) => (Ok tt, with_scratch (delete name (scratch w)) w)
    | Some (Dir _) => (Throw (js "EISDIR: illegal operation on a directory, unlink"), w)
    | None => (Throw (js "ENOENT: no such file or directory, unlink"), w)
    end.

(** [fs.statSync(p).mtimeMs] *)
Definition statSync_mtimeMs (name : jsstring) : M Z :=
  fun w =>
    match scratch w !! name with
    | Some e => (Ok (mtime e), w)
    | None => (Throw (js "ENOENT: no such file or directory, stat"), w)
    end.

Definition writeFileSync (name data : jsstring) : M unit :=
  fun w =>
    match scratch w !! name with
    | Some (Dir _) => (Throw (js "EISDIR: illegal operation on a directory, open"), w)
    | _ => (Ok tt, with_scratch (<[name := File data (clock w)]> (scratch w)) w)
    end.

(** [fs.readdirSync(tempDir)] *)
Definition readdirSync : M (list jsstring) :=
  fun w => (Ok (map_to_list (scratch w)).*1, w).

(** ** [child_process.exec] *)

Module Node.

(** A subprocess as the environment decides it: how long it lives if left
    alone ([None]: for ever), its exit status, the text captured from it
    until it ends or is killed, and the scratch directory it leaves. *)
Record process := mkProcess {
  lifetime : option Z;
  exit_code : Z;
  out : jsstring;
  err : jsstring;
  leaves : gmap jsstring entry
}.

Inductive spawn :=
| SpawnThrows (message : jsstring)
| Spawned (p : process).

(** The toolchain: what a shell command does, given the directory. *)
Definition toolchain := jsstring -> gmap jsstring entry -> spawn.

Record exec_error := mkError {
  message : jsstring;
  killed : bool;
  code : option Z
}.

Record callback_args := mkArgs {
  error : option exec_error;
  stdout : jsstring;
  stderr : jsstring
}.

(** The process is still running when the [timeout] option expires. *)
Definition overruns (timeout : Z) (p : process) : bool :=
  match lifetime p with
  | Some d => timeout <? d
  | None => true
  end.

(** Wall-clock time until the callback: [exec] kills an overrunning
    child when the timeout expires. *)
Definition elapsed (timeout : Z) (p : process) : Z :=
  match lifetime p with
  | Some d => if timeout <? d then timeout else d
  | None => timeout
  end.

Definition failure_message (command : jsstring) (p : process) : jsstring :=
  js "Command failed: " ++ command ++ LF ++ err p.

(** The arguments of the callback of [exec(command, {timeout}, callback)]:
    [error] is [null] for exit status 0, and has [killed] set when the
    runtime terminated the child at the timeout. *)
Definition callback (command : jsstring) (timeout : Z) (p : process)
  : callback_args :=
  if overruns timeout p then
    mkArgs (Some (mkError (failure_message command p) true None)) (out p) (err p)
  else if exit_code p =? 0 then
    mkArgs None (out p) (err p)
  else
    mkArgs (Some (mkError (failure_message command p) false (Some (exit_code p))))
      (out p) (err p).

(** What reaches the JavaScript side of a spawned child, in order: the
    events the [ChildProcess] emits, and the call of the callback, which
    [exec] makes from its own ['close'] listener.  A [ChildProcess] emits
    ['spawn'], ['exit'], ['close'], ['error'], ['disconnect'] and
    ['message']; of these a child started by [exec] that was spawned
    emits the first three. *)
Inductive happening :=
| Emit (event : jsstring)
| Callback (args : callback_args).

Definition happenings (command : jsstring) (timeout : Z) (p : process)
  : list happening :=
  [ Emit (js "spawn"); Emit (js "exit");
    Callback (callback command timeout p); Emit (js "close") ].

End Node.
Import Node.

(** [exec(command, { timeout }, ...)] up to the return of the
    [ChildProcess]: the command is recorded; a failed spawn throws. *)
Definition exec_spawn (tc : toolchain) (command : jsstring) : M process :=
  fun w =>
    let w1 := mkWorld (scratch w) (clock w) (spawned w ++ [command]) in
    match tc command (scratch w) with
    | SpawnThrows m => (Throw m, w1)
    | Spawned p => (Ok p, w1)
    end.

(** Awaiting the child: time passes and the directory is as it left it. *)
Definition await_child (timeout : Z) (p : process) : M unit :=
  fun w => (Ok tt, mkWorld (leaves p) (clock w + elapsed timeout p) (spawned w)).

(** ** Promises and listeners *)

(** A promise under construction and the child it watches: the value it
    was resolved with, if any, and whether [kill()] was called on the
    child by the code. *)
Record watch (A : Type) := mkWatch {
  settled : option A;
  kill_called : bool
}.
Arguments mkWatch {A} settled kill_called.
Arguments settled {A} w.
Arguments kill_called {A} w.

Definition pending {A} : watch A := mkWatch None false.

(** [resolve(v)]: only the first call settles the promise. *)
Definition resolve {A} (v : A) (st : watch A) : watch A :=
  match settled st with
  | None => mkWatch (Some v) (kill_called st)
  | Some _ => st
  end.

(** [childProcess.kill()] *)
Definition kill {A} (st : watch A) : watch A :=
  mkWatch (settled st) true.

(** A listener registered with [on(event, f)]. *)
Definition listener (A : Type) : Type := jsstring * (watch A -> watch A).

(** One happening reaches the listeners registered for its event, or the
    callback. *)
Definition deliver {A} (listeners : list (listener A))
  (cb : callback_args -> watch A -> watch A) (st : watch A) (h : happening)
  : watch A :=
  match h with
  | Emit event =>
      foldl (fun st l => if bool_decide (l.1 = event) then l.2 st else st)
        st listeners
  | Callback args => cb args st
  end.

(** [await] of the promise once the child is gone. *)
Definition await {A} (st : watch A) : M A :=
  fun w =>
    match settled st with
    | Some a => (Ok a, w)
    | None => (Pending, w)
    end.

(** ** Compiler and Runner *)

Inductive compile_result :=
| CompileSuccess (output : jsstring)
| CompileFailure (error : jsstring).

Definition compile_callback (args : callback_args)
  : watch compile_result -> watch compile_result :=
  match error args with
  | Some e =>
      resolve (CompileFailure
                 (or_else (or_else (stderr args) (stdout args)) (message e)))
  | None => resolve (CompileSuccess (stdout args))
  end.

(** [`javac -d ${outputDir} "${filePath}"`] *)
Definition javac_command (filePath outputDir : jsstring) : jsstring :=
  js "javac -d " ++ outputDir ++ js " " ++ quote ++ filePath ++ quote.

Definition compileJava (tc : toolchain) (filePath outputDir : jsstring)
  : M compile_result :=
  (let command := javac_command filePath outputDir in
   let! p := exec_spawn tc command in
   await_child 10000 p ;!
   await (foldl (deliver [] compile_callback) pending
            (happenings command 10000 p)))%M.

Record exec_result := mkExec {
  output : jsstring;
  timedOut : bool
}.

Definition execute_callback (args : callback_args)
  : watch exec_result -> watch exec_result :=
  resolve (mkExec (or_else (stdout args) (stderr args)) false).

(** [childProcess.on('timeout', () => { childProcess.kill(); resolve(...) })] *)
Definition on_timeout : listener exec_result :=
  (js "timeout", fun st => resolve (mkExec [] true) (kill st)).

(** [`cd "${classPath}" && java ${className}`] *)
Definition java_command (className classPath : jsstring) : jsstring :=
  js "cd " ++ quote ++ classPath ++ quote ++ js " && java " ++ className.

Definition executeJava (tc : toolchain) (className classPath : jsstring)
  : M exec_result :=
  (let command := java_command className classPath in
   let! p := exec_spawn tc command in
   await_child 5000 p ;!
   await (foldl (deliver [on_timeout] execute_callback) pending
            (happenings command 5000 p)))%M.

(** ** ArtifactStore and Reaper *)

Definition cleanupFile (name : jsstring) : M unit :=
  try_catch
    (let! there := existsSync name in
     if there then unlinkSync name else ret tt)%M
    (fun _ => ret tt).

Definition maxAge : Z := 5 * 60 * 1000.

(** The body of [files.forEach]. *)
Definition sweep_file (now : Z) (file : jsstring) : M unit :=
  try_catch
    (let! mtimeMs := statSync_mtimeMs file in
     if now - mtimeMs >? maxAge then unlinkSync file else ret tt)%M
    (fun _ => ret tt).

Fixpoint forEach {A} (f : A -> M unit) (l : list A) : M unit :=
  match l with
  | [] => ret tt
  | x :: l' => (f x ;! forEach f l')%M
  end.

Definition cleanupTempFiles : M unit :=
  try_catch
    (let! files := readdirSync in
     let! now := Date_now in
     forEach (sweep_file now) files)%M
    (fun _ => ret tt).

(** ** The pipeline: [POST /compile] *)

(** A JSON response: the status and the properties of the object given
    to [res.json], in the order of the literal. *)
Record response := mkResponse {
  status : Z;
  payload : list (string * value)
}.

(** [obj.k]: [undefined] for an absent property. *)
Fixpoint prop (k : string) (o : list (string * value)) : value :=
  match o with
  | [] => VUndefined
  | (k', v) :: o' => if String.eqb k k' then v else prop k o'
  end.

Definition has_prop (k : string) (o : list (string * value)) : bool :=
  existsb (fun kv => String.eqb k kv.1) o.

(** What a request meets that is not in its body: [os.tmpdir()], the
    toolchain, and the value of
    [Math.random().toString(36).substr(2, 9)]. *)
Record Env := mkEnv {
  tmpdir : jsstring;
  tools : toolchain;
  random36 : jsstring
}.

(** [path.join(a, b)] for a plain name [b]. *)
Definition path_join (a b : jsstring) : jsstring := a ++ js "/" ++ b.

Definition tempDir (env : Env) : jsstring :=
  path_join (tmpdir env) (js "javalab-temp").

Definition as_string (v : value) : jsstring :=
  match v with VString s => s | _ => [] end.

Definition is_string (v : value) : bool :=
  match typeof v with TString => true | _ => false end.

Definition no_code : response :=
  mkResponse 400
    [ ("success", VBool false);
      ("error", VString (js "No code provided"));
      ("output", VString (cross_mark ++ js " Error: No Java code to compile")) ]%string.

Definition too_long : response :=
  mkResponse 400
    [ ("success", VBool false);
      ("error", VString (js "Code too long (max 10,000 characters)"));
      ("output", VString (cross_mark ++
         js " Error: Code exceeds maximum length (10,000 characters)")) ]%string.

Definition restricted : response :=
  mkResponse 400
    [ ("success", VBool false);
      ("error", VString (js "Potentially malicious code detected"));
      ("output", VString (cross_mark ++
         js " Security Error: Code contains restricted patterns")) ]%string.

Definition timeout_text : jsstring :=
  alarm_clock ++ js " Error: Program execution timed out (5 seconds)" ++ LF ++ LF ++
  js "Possible reasons:" ++ LF ++
  bullet ++ js " Infinite loop" ++ LF ++
  bullet ++ js " Waiting for input (Scanner not supported)" ++ LF ++
  bullet ++ js " Too much computation" ++ LF ++ LF ++
  js "Tip: Use simple loops and avoid infinite loops.".

(** [{ success, output, executionTime }], sent with the default status. *)
Definition ok_response (success : bool) (text : jsstring) (ms : Z) : response :=
  mkResponse 200
    [ ("success", VBool success);
      ("output", VString text);
      ("executionTime", VNumber ms) ]%string.

(** [res.json({ success, output, executionTime: Date.now() - startTime })] *)
Definition respond (startTime : Z) (success : bool) (text : jsstring)
  : M response :=
  (let! now := Date_now in
   ret (ok_response success text (now - startTime)))%M.

Definition server_error (message : jsstring) : response :=
  mkResponse 500
    [ ("success", VBool false);
      ("error", VString message);
      ("output", VString (cross_mark ++ js " Server Error: " ++ message ++
         LF ++ LF ++ js "Please try again or contact support.")) ]%string.

(** The name allocated for a request. *)
Definition allocate (env : Env) (now : Z) : jsstring :=
  js "Main_" ++ dec now ++ js "_" ++ random36 env.

(** The [try] block of the route. *)
Definition pipeline (env : Env) (startTime : Z) (code : jsstring)
  : M response :=
  (let! now := Date_now in
   let filename := allocate env now in
   let javaFile := filename ++ js ".java" in
   let classFile := filename ++ js ".class" in
   let javaFilePath := path_join (tempDir env) javaFile in
   let processedCode := ensureMainClass code in
   writeFileSync javaFile processedCode ;!
   let! compileResult := compileJava (tools env) javaFilePath (tempDir env) in
   match compileResult with
   | CompileFailure error =>
       cleanupFile javaFile ;!
       respond startTime false (formatCompilationError error)
   | CompileSuccess _ =>
       let! executionResult := executeJava (tools env) filename (tempDir env) in
       cleanupFile javaFile ;!
       cleanupFile classFile ;!
       if timedOut executionResult
       then respond startTime false timeout_text
       else respond startTime true (output executionResult)
   end)%M.

(** [req.body.k]: [undefined] for an absent property. *)
Definition field (k : string) (body : gmap string value) : value :=
  match body !! k with
  | Some v => v
  | None => VUndefined
  end.

(** [app.post('/compile', async (req, res) => ...)], from [req.body]. *)
Definition compile_route (env : Env) (body : gmap string value) : M response :=
  (let! startTime := Date_now in
   let code := field "code" body in
   if negb (truthy code) || negb (is_string code) then ret no_code
   else
     let code := as_string code in
     if 10000 <? Z.of_nat (length code) then ret too_long
     else if containsMaliciousCode code then ret restricted
     else
       try_catch (pipeline env startTime code)
         (fun message => ret (server_error message)))%M.

(** *** A toolchain to run examples with

    A small stand-in for the external tools, used at concrete inputs
    only.  [javac] keeps to the rule of the language that a public class
    lives in a file of its own name, and names a class file after the
    class; [java] loads the class it is given from the class files of the
    directory and then behaves as [program] says. *)
Module Example.

(** The file of the directory that a command is about, if any. *)
Definition subject (mk : jsstring -> jsstring) (command : jsstring)
  (d : gmap jsstring entry) : option (jsstring * entry) :=
  head (filter (fun ne => command = mk ne.1) (map_to_list d)).

Definition javac (dirpath command : jsstring) (d : gmap jsstring entry)
  : process :=
  match subject (fun file => javac_command (path_join dirpath file) dirpath)
          command d with
  | Some (file, File source _) =>
      if includes source (js "public class Main")
         && negb (bool_decide (file = js "Main.java"))
      then
        mkProcess (Some 900) 1 []
          (path_join dirpath file ++
           js ":1: error: class Main is public, should be declared in a file named Main.java" ++
           LF ++ js "1 error" ++ LF)
          d
      else
        mkProcess (Some 900) 0 [] [] (<[js "Main.class" := File source 0]> d)
  | _ =>
      mkProcess (Some 300) 2 [] (js "error: file not found" ++ LF) d
  end.

Definition java (program : gmap jsstring entry -> process)
  (dirpath command : jsstring) (d : gmap jsstring entry) : process :=
  match subject (fun file => java_command (take (length file - 6) file) dirpath)
          command (filter (fun ne => includes ne.1 (js ".class")) d) with
  | Some _ => program d
  | None =>
      mkProcess (Some 200) 1 []
        (js "Error: Could not find or load main class" ++ LF) d
  end.

Definition tools_for (dirpath : jsstring)
  (program : gmap jsstring entry -> process) : toolchain :=
  fun command d =>
    if startsWith command (js "javac ")
    then Spawned (javac dirpath command d)
    else Spawned (java program dirpath command d).

(** The same tools on a host where no further process can be started
    once the compiler has run. *)
Definition tools_exhausted (dirpath : jsstring) : toolchain :=
  fun command d =>
    if startsWith command (js "javac ")
    then Spawned (javac dirpath command d)
    else SpawnThrows (js "spawn ENOMEM").

(** Tools under which whatever is compiled runs as [program] says. *)
Definition tools_running (program : gmap jsstring entry -> process)
  : toolchain :=
  fun command d =>
    if startsWith command (js "javac ")
    then Spawned (mkProcess (Some 900) 0 [] [] d)
    else Spawned (program d).

(** A host on which no process can be started. *)
Definition tools_unavailable : toolchain :=
  fun _ _ => SpawnThrows (js "spawn ENOMEM").

(** [while (true) { }] *)
Definition loops (d : gmap jsstring entry) : process :=
  mkProcess None 0 [] [] d.

(** An uncaught exception: a stack trace on [stderr], exit status 1. *)
Definition crashes (d : gmap jsstring entry) : process :=
  mkProcess (Some 120) 1 []
    (js "Exception in thread main java.lang.ArithmeticException: / by zero" ++ LF)
    d.

Definition hi : jsstring :=
  js "System.out.println(" ++ quote ++ js "hi" ++ quote ++ js ");".

Definition prints_hi (d : gmap jsstring entry) : process :=
  mkProcess (Some 150) 0 (js "hi" ++ LF) [] d.

Definition request (code : jsstring) : gmap string value :=
  {[ "code"%string := VString code ]}.

Definition env0 : Env :=
  mkEnv (js "/tmp") (tools_for (js "/tmp/javalab-temp") prints_hi)
    (js "k3x9q2m1z").

Definition w0 : World := mkWorld ∅ 1700000000000 [].

End Example.

(** ** The caller: [runCode] of [src/frontend/script.js] *)

Module Frontend.

(** [String.prototype.trim]: white space and line terminators go from
    both ends. *)
Fixpoint trimStart (s : jsstring) : jsstring :=
  match s with
  | c :: s' => if is_space c then trimStart s' else s
  | [] => []
  end.

Definition trimEnd (s : jsstring) : jsstring :=
  reverse (trimStart (reverse s)).

Definition trim (s : jsstring) : jsstring := trimEnd (trimStart s).

(** What the user answers to the two [confirm] dialogs, if asked. *)
Record answers := mkAnswers {
  run_without_class : bool;
  run_without_main : bool
}.

(** How [runCode] goes up to [fetch]. *)
Inductive attempt :=
| AlreadyCompiling
| NothingToRun
| Cancelled
| Sent (body : gmap string value).

(** The first dialog is shown. *)
Definition asks_about_class (code : jsstring) : bool :=
  negb (includes code (js "public class Main"))
  && negb (includes code (js "class Main")).

Definition asks_about_main (code : jsstring) : bool :=
  negb (includes code (js "public static void main")).

Definition runCode_request (isRunning : bool) (text : jsstring)
  (a : answers) : attempt :=
  if isRunning then AlreadyCompiling
  else
    let code := trim text in
    if negb (truthy (VString code)) then NothingToRun
    else if asks_about_class code && negb (run_without_class a) then Cancelled
    else if asks_about_main code && negb (run_without_main a) then Cancelled
    else
      Sent (<["code"%string := VString code]>
              (<["language"%string := VString (js "java")]>
                 {[ "version"%string := VString (js "17") ]})).

(** [`${v}`] *)
Definition to_text (v : value) : jsstring :=
  match v with
  | VUndefined => js "undefined"
  | VNull => js "null"
  | VBool true => js "true"
  | VBool false => js "false"
  | VNumber n => dec n
  | VString s => s
  | VObject => js "[object Object]"
  end.

(** [a || b] on values. *)
Definition value_or (a b : value) : value := if truthy a then a else b.

(** What the page shows for a response: the arguments of [showOutput],
    of [updateStatus] and of [showToast]. *)
Record display := mkDisplay {
  shown : jsstring;
  kind : string;
  status_kind : string;
  status_text : jsstring;
  toast : option jsstring
}.

(** [showOutput(message, type)] calls [message.split], which only a
    string has. *)
Definition showOutput (message : value) : option jsstring :=
  match message with
  | VString s => Some s
  | _ => None
  end.

(** The branch of [runCode] after [response.json()]; [None] when
    [showOutput] throws and the [catch] block takes over. *)
Definition present (r : response) : option display :=
  let data := payload r in
  if (200 <=? status r) && (status r <=? 299) then
    if truthy (prop "success" data) then
      message ← showOutput (prop "output" data);
      Some (mkDisplay message "success" "success" (js "Execution successful")
              (if truthy (prop "executionTime" data)
               then Some (js "Execution time: " ++
                          to_text (prop "executionTime" data) ++ js "ms")
               else None))
    else
      message ← showOutput (value_or (prop "output" data) (prop "error" data));
      Some (mkDisplay message "error" "error" (js "Compilation failed") None)
  else
    Some (mkDisplay
            (cross_mark ++ js " Server Error: " ++
             to_text (value_or (prop "error" data)
                        (VString (js "Unknown error"))) ++
             LF ++ LF ++ js "Try again later.")
            "error" "error" (js "Server error") None).

End Frontend.
Import Frontend.

(** * The vocabulary of the statements *)

(** [t] occurs in [s]. *)
Definition occurs_in (t s : jsstring) : Prop :=
  exists a b, s = a ++ t ++ b.

(** What [compileJava] resolves with once the compiler is gone. *)
Definition compile_outcome (command : jsstring) (p : process) : compile_result :=
  if overruns 10000 p || negb (exit_code p =? 0)
  then CompileFailure
         (or_else (or_else (err p) (out p)) (failure_message command p))
  else CompileSuccess (out p).

(** The directory after [cleanupFile]: a file of that name is gone, a
    directory stays, and nothing is thrown. *)
Definition without (name : jsstring) (d : gmap jsstring entry)
  : gmap jsstring entry :=
  match d !! name with
  | Some (File _ _) => delete name d
  | _ => d
  end.

(** The body carries a [code] that passes validation and the scan. *)
Definition accepted (body : gmap string value) (code : jsstring) : Prop :=
  body !! "code"%string = Some (VString code) /\ code <> [] /\
  Z.of_nat (length code) <= 10000 /\ containsMaliciousCode code = false.

(** The names and commands of the request that finds the world [w]. *)
Definition javaFile (env : Env) (w : World) : jsstring :=
  allocate env (clock w) ++ js ".java".

Definition classFile (env : Env) (w : World) : jsstring :=
  allocate env (clock w) ++ js ".class".

Definition compile_command (env : Env) (w : World) : jsstring :=
  javac_command (path_join (tempDir env) (javaFile env w)) (tempDir env).

Definition run_command (env : Env) (w : World) : jsstring :=
  java_command (allocate env (clock w)) (tempDir env).

(** The directory once the source is written. *)
Definition written (env : Env) (w : World) (code : jsstring)
  : gmap jsstring entry :=
  <[javaFile env w := File (ensureMainClass code) (clock w)]> (scratch w).

(** No directory is in the way of the source file. *)
Definition writable (env : Env) (w : World) : Prop :=
  forall m, scratch w !! javaFile env w <> Some (Dir m).

(** A response of the routine outcomes: [success], [output] and
    [executionTime], and no [error]. *)
Definition timed_shape (r : response) (ms : Z) : Prop :=
  (exists b, prop "success" (payload r) = VBool b) /\
  (exists t, prop "output" (payload r) = VString t) /\
  prop "executionTime" (payload r) = VNumber ms /\
  has_prop "error" (payload r) = false.

(** A response of the rejections and of the internal error: [success]
    is [false], [error] and [output] are strings, and there is no
    [executionTime]. *)
Definition error_shape (r : response) : Prop :=
  prop "success" (payload r) = VBool false /\
  (exists e, prop "error" (payload r) = VString e) /\
  (exists t, prop "output" (payload r) = VString t) /\
  has_prop "executionTime" (payload r) = false.

(** What a sweep at time [now] makes of an entry it reaches: a file whose
    age exceeds [maxAge] goes, every other entry stays. *)
Definition swept (now : Z) (e : entry) : option entry :=
  match e with
  | File _ m => if now - m >? maxAge then None else Some e
  | Dir _ => Some e
  end.

(** A [/tmp/] path starts at the head of [s]: the five characters and one
    more that is neither a colon nor white space. *)
Definition tmp_at (s : jsstring) : bool :=
  match s with
  | c0 :: c1 :: c2 :: c3 :: c4 :: x :: _ =>
      if (47 =? c0)%N then if (116 =? c1)%N then if (109 =? c2)%N then
      if (112 =? c3)%N then if (47 =? c4)%N then path_char x
      else false else false else false else false else false
  | _ => false
  end.

(** Every place where a [/tmp/] path starts is a place where [r] matches. *)
Definition covers (r : regex) (s : jsstring) : Prop :=
  forall a b, s = a ++ b -> tmp_at b = true ->
    exists n, match_len r b = Some (S n).

(** The texts a pattern matches, read off the pattern: one character of
    a class, any run of a class, or a run of at least one. *)
Fixpoint matches (r : regex) (u : jsstring) : Prop :=
  match r with
  | [] => u = []
  | it :: r' =>
      match qt it with
      | One =>
          exists c u', u = c :: u' /\ cls it c = true /\ matches r' u'
      | Star =>
          exists v u',
            u = v ++ u' /\ Forall (fun c => cls it c = true) v /\ matches r' u'
      | Plus =>
          exists c v u',
            u = c :: v ++ u' /\ cls it c = true /\
            Forall (fun c => cls it c = true) v /\ matches r' u'
      end
  end.

(** The literals of the denylist. *)
Definition restricted_literals : list string :=
  [ "Runtime.getRuntime()"; "ProcessBuilder"; "exec("; "System.exit(";
    "Thread.sleep("; "FileWriter"; "FileOutputStream"; "Socket(";
    "ServerSocket("; "Class.forName"; "javax.script"; "wait(";
    "notify(" ]%string.

(** The texts of the denylist: a literal, [native] and one white-space
    character, or [synchronized], white space and a parenthesis. *)
Definition restricted_text (u : jsstring) : Prop :=
  (exists t, t ∈ restricted_literals /\ u = js t) \/
  (exists c, is_space c = true /\ u = js "native" ++ [c]) \/
  (exists ws, Forall (fun c => is_space c = true) ws /\
              u = js "synchronized" ++ ws ++ js "(").

(** The text between the header and the tips. *)
Definition format_body (error : jsstring) : jsstring :=
  replace (lit "Main.java:") (js "Line ")
    (replace (lit_i "warning:") (warning_sign ++ js " Warning:")
       (replace (lit_i "error:") (cross_mark ++ js " Error:")
          (replace tmp_path (js "Main.java") error))).

(** The end of a path: the end of the text, a colon or white space. *)
Definition path_end (s : jsstring) : Prop :=
  match s with
  | [] => True
  | d :: _ => path_char d = false
  end.

(** The ways a request ends: the response and the world it leaves. *)
Inductive ending (env : Env) (body : gmap string value) (w : World)
  : response -> World -> Prop :=
| NoCode :
    negb (truthy (field "code" body)) || negb (is_string (field "code" body))
      = true ->
    ending env body w no_code w
| TooLong code :
    field "code" body = VString code -> code <> [] ->
    10000 < Z.of_nat (length code) ->
    ending env body w too_long w
| Restricted code :
    field "code" body = VString code -> code <> [] ->
    Z.of_nat (length code) <= 10000 ->
    containsMaliciousCode code = true ->
    ending env body w restricted w
| WriteThrows code message m :
    accepted body code ->
    scratch w !! javaFile env w = Some (Dir m) ->
    ending env body w (server_error message) w
| CompilerThrows code message :
    accepted body code -> writable env w ->
    tools env (compile_command env w) (written env w code)
      = SpawnThrows message ->
    ending env body w (server_error message)
      (mkWorld (written env w code) (clock w)
         (spawned w ++ [compile_command env w]))
| CompileFails code pc error :
    accepted body code -> writable env w ->
    tools env (compile_command env w) (written env w code) = Spawned pc ->
    compile_outcome (compile_command env w) pc = CompileFailure error ->
    ending env body w
      (ok_response false (formatCompilationError error) (elapsed 10000 pc))
      (mkWorld (without (javaFile env w) (leaves pc))
         (clock w + elapsed 10000 pc)
         (spawned w ++ [compile_command env w]))
| RunnerThrows code pc output message :
    accepted body code -> writable env w ->
    tools env (compile_command env w) (written env w code) = Spawned pc ->
    compile_outcome (compile_command env w) pc = CompileSuccess output ->
    tools env (run_command env w) (leaves pc) = SpawnThrows message ->
    ending env body w (server_error message)
      (mkWorld (leaves pc) (clock w + elapsed 10000 pc)
         (spawned w ++ [compile_command env w; run_command env w]))
| Executed code pc output pe :
    accepted body code -> writable env w ->
    tools env (compile_command env w) (written env w code) = Spawned pc ->
    compile_outcome (compile_command env w) pc = CompileSuccess output ->
    tools env (run_command env w) (leaves pc) = Spawned pe ->
    ending env body w
      (ok_response true (or_else (out pe) (err pe))
         (elapsed 10000 pc + elapsed 5000 pe))
      (mkWorld
         (without (classFile env w) (without (javaFile env w) (leaves pe)))
         (clock w + elapsed 10000 pc + elapsed 5000 pe)
         (spawned w ++ [compile_command env w; run_command env w])).

(** No process of the tools changes the entry called [name]. *)
Definition untouched_by (tc : toolchain) (name : jsstring) : Prop :=
  forall command d p, tc command d = Spawned p -> leaves p !! name = d !! name.

(** The world at a later reading of the clock. *)
Definition at_time (now : Z) (w : World) : World :=
  mkWorld (scratch w) now (spawned w).

(** * Properties *)

(** ** Strings *)

Lemma startsWith_spec (s t : jsstring) :
  startsWith s t = true <-> exists b, s = t ++ b.
Proof.
  revert s; induction t as [|a t IH]; intros s; simpl.
  - split; [intros _; by exists s | done].
  - destruct s as [|c s]; simpl.
    + split; [done | intros [b Hb]; discriminate].
    + rewrite andb_true_iff, N.eqb_eq, IH. split.
      * intros [-> [b ->]]. by exists b.
      * intros [b Hb]. injection Hb as -> ->. eauto.
Qed.

Lemma includes_spec (s t : jsstring) :
  includes s t = true <-> occurs_in t s.
Proof.
  unfold occurs_in. induction s as [|c s IH]; simpl.
  - rewrite orb_false_r, startsWith_spec. split.
    + intros [b Hb]. by exists [], b.
    + intros [a [b Hb]]. destruct a; [by exists b | discriminate].
  - rewrite orb_true_iff, startsWith_spec, IH. split.
    + intros [[b ->] | [a [b ->]]]; [by exists [], b | by exists (c :: a), b].
    + intros [a [b Hb]]. destruct a as [|c' a]; simpl in Hb.
      * left. by exists b.
      * right. injection Hb as -> ->. by exists a, b.
Qed.

Lemma first_match_Exists (ps : list regex) (code : jsstring) :
  first_match ps code = true <-> Exists (fun p => test p code = true) ps.
Proof.
  induction ps as [|p ps IH]; simpl.
  - split; [done | by intros H; apply Exists_nil in H].
  - rewrite Exists_cons, <- IH. destruct (test p code); [tauto |].
    split; [tauto | by intros [? | ?]].
Qed.

(** A literal pattern matches at the head exactly when the text starts
    with the literal. *)
Lemma match_len_chr (u s : jsstring) :
  match_len (chr <$> u) s =
    if startsWith s u then Some (length u) else None.
Proof.
  revert s. induction u as [|a u IH]; intros s; [done |].
  destruct s as [|c s]; [done |]. cbn [fmap list_fmap match_len chr qt cls].
  cbn [startsWith length]. rewrite IH.
  destruct (N.eqb_spec a c); [| done]. cbn [andb].
  by destruct (startsWith s u).
Qed.

Lemma test_lit (t : string) (s : jsstring) :
  test (lit t) s = includes s (js t).
Proof.
  unfold lit. induction s as [|c s IH]; cbn [test includes];
    rewrite match_len_chr; by destruct (startsWith _ (js t)).
Qed.

(** The scan finds every occurrence of a literal of the denylist. *)
Lemma scan_finds_literal (t : string) (code : jsstring) :
  lit t ∈ dangerousPatterns -> occurs_in (js t) code ->
  containsMaliciousCode code = true.
Proof.
  intros Hin Hocc. apply first_match_Exists, Exists_exists.
  exists (lit t). split; [done |]. rewrite test_lit. by apply includes_spec.
Qed.

(** ** SourceNormalizer *)

(** C8: [ensureMainClass] returns the text unchanged when the text
    [class Main] occurs in it, which is what both [includes] tests of the
    source amount to, and otherwise returns the entry-point template with
    the text, verbatim, between its fixed head and tail. *)
Theorem C8_normalize_identity_or_wrap (code : jsstring) :
  (occurs_in (js "public class Main") code \/ occurs_in (js "class Main") code ->
   ensureMainClass code = code) /\
  (~ occurs_in (js "class Main") code ->
   ensureMainClass code = wrapper_head ++ code ++ wrapper_tail /\
   occurs_in code (ensureMainClass code)).
Proof.
  unfold ensureMainClass. split.
  - rewrite <- !includes_spec. intros H.
    apply orb_true_iff in H. by rewrite H.
  - intros H.
    assert (includes code (js "class Main") = false) as H1.
    { apply not_true_is_false. by rewrite includes_spec. }
    assert (includes code (js "public class Main") = false) as H2.
    { apply not_true_is_false. rewrite includes_spec.
      intros [a [b ->]]. apply H. exists (a ++ js "public "), b.
      by rewrite <- !app_assoc. }
    rewrite H1, H2. simpl. split; [done | by exists wrapper_head, wrapper_tail].
Qed.

Lemma C8_normalize_witness :
  ensureMainClass (js "class Main { }") = js "class Main { }" /\
  ensureMainClass Example.hi = wrapper_head ++ Example.hi ++ wrapper_tail.
Proof.
  split.
  - apply (C8_normalize_identity_or_wrap (js "class Main { }")).
    right. by exists [], (js " { }").
  - apply (C8_normalize_identity_or_wrap Example.hi).
    rewrite <- includes_spec. by vm_compute.
Defined.

(** ** Validation and the security filter *)

(** C5: a body whose [code] is missing, is no string, is the empty
    string or has more than 10,000 code units is answered with status 400
    and [success: false], and the world is the one the request found: no
    file written, no command spawned, no time spent. *)
Theorem C5_invalid_code_rejected (env : Env) (body : gmap string value)
    (w : World) :
  let code := field "code" body in
  body !! "code"%string = None \/ is_string code = false \/
  code = VString [] \/
  (exists s, code = VString s /\ 10000 < Z.of_nat (length s)) ->
  exists r, compile_route env body w = (Ok r, w) /\
    status r = 400 /\ prop "success" (payload r) = VBool false.
Proof.
  intros code H. unfold compile_route, bind, Date_now, ret. fold code.
  destruct H as [H | [H | [H | [s [H Hlen]]]]].
  - assert (code = VUndefined) as -> by (unfold code, field; by rewrite H).
    by exists no_code.
  - rewrite H, orb_true_r. by exists no_code.
  - rewrite H. by exists no_code.
  - rewrite H. destruct s as [|c s]; [by exists no_code |].
    cbn [truthy is_string typeof negb orb as_string].
    destruct (10000 <? Z.of_nat (length (c :: s))) eqn:E.
    + by exists too_long.
    + apply Z.ltb_ge in E. lia.
Qed.

Lemma C5_invalid_code_witness :
  exists r, compile_route Example.env0 ∅ Example.w0 = (Ok r, Example.w0) /\
    status r = 400 /\ prop "success" (payload r) = VBool false.
Proof.
  apply (C5_invalid_code_rejected Example.env0 ∅ Example.w0).
  left. apply lookup_empty.
Defined.

(** C4: a source text that one of the patterns of the denylist matches
    makes the scan answer [true], and the request is answered with status
    400 and [success: false] in the world it found: nothing was written
    and nothing spawned.  The scan is a function of the text alone. *)
Theorem C4_denylisted_code_rejected (env : Env) (body : gmap string value)
    (w : World) (code : jsstring) :
  body !! "code"%string = Some (VString code) ->
  Exists (fun p => test p code = true) dangerousPatterns ->
  containsMaliciousCode code = true /\
  exists r, compile_route env body w = (Ok r, w) /\
    status r = 400 /\ prop "success" (payload r) = VBool false.
Proof.
  intros Hbody Hmatch. apply first_match_Exists in Hmatch.
  split; [done |].
  unfold compile_route, bind, Date_now, ret, field. rewrite Hbody.
  destruct code as [|c s]; [discriminate |].
  cbn [truthy is_string typeof negb orb as_string].
  destruct (10000 <? Z.of_nat (length (c :: s))); [by exists too_long |].
  unfold containsMaliciousCode. rewrite Hmatch. by exists restricted.
Qed.

Lemma C4_denylisted_code_witness :
  let body := Example.request (js "System.exit(1);") in
  containsMaliciousCode (js "System.exit(1);") = true /\
  exists r, compile_route Example.env0 body Example.w0 = (Ok r, Example.w0) /\
    status r = 400 /\ prop "success" (payload r) = VBool false.
Proof.
  apply (C4_denylisted_code_rejected Example.env0 _ Example.w0
           (js "System.exit(1);")).
  - apply lookup_singleton_eq.
  - apply first_match_Exists. by vm_compute.
Defined.

(** ** Compiler and Runner *)

Section Subprocess.

Variable tc : toolchain.

Lemma compileJava_spawned (filePath outputDir : jsstring) (w : World)
    (p : process) :
  let command := javac_command filePath outputDir in
  tc command (scratch w) = Spawned p ->
  compileJava tc filePath outputDir w =
    (Ok (compile_outcome command p),
     mkWorld (leaves p) (clock w + elapsed 10000 p) (spawned w ++ [command])).
Proof.
  intros command H. unfold compileJava, bind, exec_spawn. fold command.
  rewrite H. unfold await_child, happenings, compile_outcome, callback.
  destruct (overruns 10000 p); [done |].
  by destruct (exit_code p =? 0).
Qed.

Lemma compileJava_throws (filePath outputDir : jsstring) (w : World)
    (m : jsstring) :
  let command := javac_command filePath outputDir in
  tc command (scratch w) = SpawnThrows m ->
  compileJava tc filePath outputDir w =
    (Throw m, mkWorld (scratch w) (clock w) (spawned w ++ [command])).
Proof.
  intros command H. unfold compileJava, bind, exec_spawn. fold command.
  by rewrite H.
Qed.

(** No event of a child that was spawned is called ['timeout'], so the
    listener of [executeJava] never runs and the callback settles the
    promise, whatever the error it is given. *)
Lemma executeJava_spawned (className classPath : jsstring) (w : World)
    (p : process) :
  let command := java_command className classPath in
  tc command (scratch w) = Spawned p ->
  executeJava tc className classPath w =
    (Ok (mkExec (or_else (out p) (err p)) false),
     mkWorld (leaves p) (clock w + elapsed 5000 p) (spawned w ++ [command])).
Proof.
  intros command H. unfold executeJava, bind, exec_spawn. fold command.
  rewrite H. unfold await_child, happenings, callback.
  destruct (overruns 5000 p); [done |].
  by destruct (exit_code p =? 0).
Qed.

Lemma executeJava_throws (className classPath : jsstring) (w : World)
    (m : jsstring) :
  let command := java_command className classPath in
  tc command (scratch w) = SpawnThrows m ->
  executeJava tc className classPath w =
    (Throw m, mkWorld (scratch w) (clock w) (spawned w ++ [command])).
Proof.
  intros command H. unfold executeJava, bind, exec_spawn. fold command.
  by rewrite H.
Qed.

(** The code's own [kill()] is not reached either. *)
Lemma on_timeout_never_runs (command : jsstring) (p : process) :
  kill_called
    (foldl (deliver [on_timeout] execute_callback) pending
       (happenings command 5000 p)) = false.
Proof. done. Qed.

(** [executeJava] never resolves with [timedOut: true]. *)
Lemma executeJava_never_timedOut (className classPath : jsstring)
    (w w' : World) (r : exec_result) :
  executeJava tc className classPath w = (Ok r, w') -> timedOut r = false.
Proof.
  destruct (tc (java_command className classPath) (scratch w)) as [m | p] eqn:E.
  - by rewrite (executeJava_throws _ _ _ _ E).
  - rewrite (executeJava_spawned _ _ _ _ E). by intros [= <- _].
Qed.

End Subprocess.

(** ** ArtifactStore *)

Lemma cleanupFile_spec (name : jsstring) (w : World) :
  cleanupFile name w = (Ok tt, with_scratch (without name (scratch w)) w).
Proof.
  unfold cleanupFile, try_catch, bind, existsSync, unlinkSync, without, ret.
  destruct w as [d t l]. simpl.
  destruct (d !! name) as [[? ? | ?] |] eqn:E; simpl; by rewrite ?E.
Qed.

(** ** The paths of the pipeline *)

Section Paths.

Variables (env : Env) (body : gmap string value) (w : World) (code : jsstring).
Hypothesis Haccepted : accepted body code.

Lemma route_accepted :
  compile_route env body w =
    try_catch (pipeline env (clock w) code)
      (fun message => ret (server_error message)) w.
Proof.
  destruct Haccepted as (Hbody & Hne & Hlen & Hscan).
  unfold compile_route, bind, Date_now, field. rewrite Hbody.
  destruct code as [|c s]; [done |].
  cbn [truthy is_string typeof negb orb as_string].
  rewrite Hscan. by rewrite (proj2 (Z.ltb_ge _ _) Hlen).
Qed.

Lemma route_write_throws (m : Z) :
  scratch w !! javaFile env w = Some (Dir m) ->
  exists message, compile_route env body w = (Ok (server_error message), w).
Proof.
  intros H. rewrite route_accepted.
  unfold try_catch, pipeline, bind, Date_now, writeFileSync.
  fold (javaFile env w). rewrite H. eauto.
Qed.

Hypothesis Hwritable : writable env w.

Lemma pipeline_written (k : M response) :
  bind (writeFileSync (javaFile env w) (ensureMainClass code)) (fun _ => k) w =
  k (with_scratch (written env w code) w).
Proof.
  unfold bind, writeFileSync.
  destruct (scratch w !! javaFile env w) as [[? ? | m] |] eqn:E; try done.
  by destruct (Hwritable m).
Qed.

Lemma route_compile_throws (message : jsstring) :
  tools env (compile_command env w) (written env w code) = SpawnThrows message ->
  compile_route env body w =
    (Ok (server_error message),
     mkWorld (written env w code) (clock w) (spawned w ++ [compile_command env w])).
Proof.
  intros H. rewrite route_accepted.
  unfold try_catch, pipeline. unfold bind at 1. unfold Date_now at 1.
  fold (javaFile env w). rewrite pipeline_written.
  unfold bind at 1.
  by rewrite (compileJava_throws (tools env) _ _
       (with_scratch (written env w code) w) _ H).
Qed.

Variable pc : process.
Hypothesis Hcompiler :
  tools env (compile_command env w) (written env w code) = Spawned pc.

Lemma route_compile_fails (error : jsstring) :
  compile_outcome (compile_command env w) pc = CompileFailure error ->
  compile_route env body w =
    (Ok (ok_response false (formatCompilationError error) (elapsed 10000 pc)),
     mkWorld (without (javaFile env w) (leaves pc)) (clock w + elapsed 10000 pc)
       (spawned w ++ [compile_command env w])).
Proof.
  intros H. rewrite route_accepted.
  unfold try_catch, pipeline. unfold bind at 1. unfold Date_now at 1.
  fold (javaFile env w). rewrite pipeline_written.
  unfold bind at 1.
  rewrite (compileJava_spawned (tools env) _ _
    (with_scratch (written env w code) w) _ Hcompiler).
  fold (compile_command env w). rewrite H.
  unfold bind at 1. rewrite cleanupFile_spec.
  unfold respond, bind, Date_now, ret, ok_response, with_scratch.
  cbn [scratch clock spawned].
  by replace (clock w + elapsed 10000 pc - clock w) with (elapsed 10000 pc)
    by lia.
Qed.

Hypothesis Hcompiled :
  exists output, compile_outcome (compile_command env w) pc = CompileSuccess output.

Lemma route_run_throws (message : jsstring) :
  tools env (run_command env w) (leaves pc) = SpawnThrows message ->
  compile_route env body w =
    (Ok (server_error message),
     mkWorld (leaves pc) (clock w + elapsed 10000 pc)
       (spawned w ++ [compile_command env w; run_command env w])).
Proof.
  intros H. destruct Hcompiled as [o Ho]. rewrite route_accepted.
  unfold try_catch, pipeline. unfold bind at 1. unfold Date_now at 1.
  fold (javaFile env w). rewrite pipeline_written.
  unfold bind at 1.
  rewrite (compileJava_spawned (tools env) _ _
    (with_scratch (written env w code) w) _ Hcompiler).
  fold (compile_command env w). rewrite Ho.
  unfold bind at 1.
  rewrite (executeJava_throws (tools env) _ _
    (mkWorld (leaves pc) _ _) _ H). cbn [scratch clock spawned].
  by rewrite <- app_assoc.
Qed.

Lemma route_executed (pe : process) :
  tools env (run_command env w) (leaves pc) = Spawned pe ->
  compile_route env body w =
    (Ok (ok_response true (or_else (out pe) (err pe))
           (elapsed 10000 pc + elapsed 5000 pe)),
     mkWorld (without (classFile env w) (without (javaFile env w) (leaves pe)))
       (clock w + elapsed 10000 pc + elapsed 5000 pe)
       (spawned w ++ [compile_command env w; run_command env w])).
Proof.
  intros H. destruct Hcompiled as [o Ho]. rewrite route_accepted.
  unfold try_catch, pipeline. unfold bind at 1. unfold Date_now at 1.
  fold (javaFile env w). rewrite pipeline_written.
  unfold bind at 1.
  rewrite (compileJava_spawned (tools env) _ _
    (with_scratch (written env w code) w) _ Hcompiler).
  fold (compile_command env w). rewrite Ho.
  unfold bind at 1.
  rewrite (executeJava_spawned (tools env) _ _
    (mkWorld (leaves pc) _ _) _ H).
  unfold bind at 1. rewrite cleanupFile_spec.
  unfold bind at 1. rewrite cleanupFile_spec.
  unfold respond, bind, Date_now, ret, ok_response, with_scratch.
  cbn [scratch clock spawned timedOut output]. fold (classFile env w).
  rewrite <- app_assoc.
  by replace (clock w + elapsed 10000 pc + elapsed 5000 pe - clock w)
    with (elapsed 10000 pc + elapsed 5000 pe) by lia.
Qed.

End Paths.

(** *** What the routine paths leave behind *)

Lemma without_absent (name : jsstring) (d : gmap jsstring entry) :
  (forall m, d !! name <> Some (Dir m)) -> without name d !! name = None.
Proof.
  intros H. unfold without.
  destruct (d !! name) as [[c m | m] |] eqn:E; [| by destruct (H m) | done].
  apply lookup_delete_eq.
Qed.

Lemma without_other (name name' : jsstring) (d : gmap jsstring entry) :
  name <> name' -> without name d !! name' = d !! name'.
Proof.
  intros H. unfold without.
  destruct (d !! name) as [[c m | m] |]; [| done | done].
  by apply lookup_delete_ne.
Qed.

Lemma javaFile_classFile (env : Env) (w : World) :
  javaFile env w <> classFile env w.
Proof. unfold javaFile, classFile. by intros H%app_inv_head. Qed.

(** After a compile failure the source file is gone. *)
Lemma compile_failure_cleans (env : Env) (body : gmap string value)
    (w : World) (code : jsstring) (pc : process) (error : jsstring) :
  accepted body code -> writable env w ->
  tools env (compile_command env w) (written env w code) = Spawned pc ->
  compile_outcome (compile_command env w) pc = CompileFailure error ->
  (forall m, leaves pc !! javaFile env w <> Some (Dir m)) ->
  exists r w',
    compile_route env body w = (Ok r, w') /\ status r = 200 /\
    scratch w' !! javaFile env w = None.
Proof.
  intros Ha Hw Hc Ho Hd.
  rewrite (route_compile_fails env body w code Ha Hw pc Hc error Ho).
  do 2 eexists. split; [done |]. split; [done |]. by apply without_absent.
Qed.

(** After a run, ended by the program or by the timeout, the source file
    and the class file of the allocated name are gone.  What else the
    compiler left in the directory stays. *)
Lemma executed_cleans (env : Env) (body : gmap string value)
    (w : World) (code : jsstring) (pc pe : process) :
  accepted body code -> writable env w ->
  tools env (compile_command env w) (written env w code) = Spawned pc ->
  (exists o, compile_outcome (compile_command env w) pc = CompileSuccess o) ->
  tools env (run_command env w) (leaves pc) = Spawned pe ->
  (forall m, leaves pe !! javaFile env w <> Some (Dir m)) ->
  (forall m, leaves pe !! classFile env w <> Some (Dir m)) ->
  exists r w',
    compile_route env body w = (Ok r, w') /\ status r = 200 /\
    scratch w' !! javaFile env w = None /\
    scratch w' !! classFile env w = None /\
    forall name, name <> javaFile env w -> name <> classFile env w ->
      scratch w' !! name = leaves pe !! name.
Proof.
  intros Ha Hw Hc Hok He Hj Hk.
  rewrite (route_executed env body w code Ha Hw pc Hc Hok pe He).
  pose proof (javaFile_classFile env w) as Hne.
  do 2 eexists. split; [done |]. split; [done |]. cbn [scratch].
  split; [| split].
  - rewrite without_other by done. by apply without_absent.
  - apply without_absent. intros m. by rewrite without_other.
  - intros name H1 H2. by rewrite !without_other.
Qed.

(** When the spawn of the run step throws, the directory is left as the
    compiler left it. *)
Lemma run_error_keeps_files :
  let env := mkEnv (js "/tmp") (Example.tools_exhausted (js "/tmp/javalab-temp"))
               (js "k3x9q2m1z") in
  exists r w',
    compile_route env (Example.request (js "class Main { }")) Example.w0
      = (Ok r, w') /\
    status r = 500 /\
    is_Some (scratch w' !! javaFile env Example.w0) /\
    is_Some (scratch w' !! js "Main.class").
Proof.
  intros env. do 2 eexists. split; [vm_compute; reflexivity |].
  split; [done |]. split; vm_compute; eauto.
Qed.

(** Under the stand-in tools the class file carries the name of the
    class, not of the source file: the run step does not find the class it
    asks for, its complaint is the output of a [success: true] response,
    and [Main.class] is left in the directory. *)
Lemma class_file_outlives_request :
  exists ms w',
    compile_route Example.env0 (Example.request (js "class Main { }"))
      Example.w0 =
      (Ok (ok_response true
             (js "Error: Could not find or load main class" ++ LF) ms), w') /\
    scratch w' !! javaFile Example.env0 Example.w0 = None /\
    is_Some (scratch w' !! js "Main.class").
Proof.
  do 2 eexists. split; [vm_compute; reflexivity |].
  split; vm_compute; eauto.
Qed.

(** ** Runner and pipeline *)

(** C10: when the compiled program ends before the 5 s timeout, whatever
    its exit status, the response is 200 with [success: true], and its
    [output] is what the program wrote to [stdout] if that is not empty
    and what it wrote to [stderr] otherwise. *)
Theorem C10_completed_run_is_success (env : Env) (body : gmap string value)
    (w : World) (code : jsstring) (pc pe : process) :
  accepted body code -> writable env w ->
  tools env (compile_command env w) (written env w code) = Spawned pc ->
  (exists o, compile_outcome (compile_command env w) pc = CompileSuccess o) ->
  tools env (run_command env w) (leaves pc) = Spawned pe ->
  overruns 5000 pe = false ->
  exists r w',
    compile_route env body w = (Ok r, w') /\
    status r = 200 /\
    prop "success" (payload r) = VBool true /\
    prop "output" (payload r) =
      VString (match out pe with [] => err pe | _ => out pe end) /\
    has_prop "error" (payload r) = false.
Proof.
  intros Ha Hw Hc Hok He _.
  rewrite (route_executed env body w code Ha Hw pc Hc Hok pe He).
  do 2 eexists. split; [reflexivity |]. repeat split.
Qed.

Lemma C10_completed_run_witness :
  exists r w',
    compile_route
      (mkEnv (js "/tmp") (Example.tools_running Example.crashes) (js "k3x9q2m1z"))
      (Example.request (js "class Main { }")) Example.w0 = (Ok r, w') /\
    status r = 200 /\
    prop "success" (payload r) = VBool true /\
    prop "output" (payload r) =
      VString
        (js "Exception in thread main java.lang.ArithmeticException: / by zero"
         ++ LF) /\
    has_prop "error" (payload r) = false.
Proof.
  set (env := mkEnv (js "/tmp") (Example.tools_running Example.crashes)
                (js "k3x9q2m1z")).
  apply (C10_completed_run_is_success env
           (Example.request (js "class Main { }")) Example.w0
           (js "class Main { }")
           (mkProcess (Some 900) 0 [] []
              (written env Example.w0 (js "class Main { }")))
           (Example.crashes (written env Example.w0 (js "class Main { }")))).
  - split; [apply lookup_singleton_eq |].
    split; [done |]. split; by vm_compute.
  - intros m. by vm_compute.
  - reflexivity.
  - by exists [].
  - reflexivity.
  - reflexivity.
Defined.

(** C2, as the code has it: when the compiled program is still running
    at the 5 s timeout, [executeJava] resolves with [timedOut: false] and
    the text captured until the runtime ended the child; the listener that
    would resolve with [timedOut: true] is never called; the response is
    200 with [success: true] and that text, not the timeout message. *)
Theorem C2_overrun_is_reported_completed (env : Env)
    (body : gmap string value) (w : World) (code : jsstring)
    (pc pe : process) :
  accepted body code -> writable env w ->
  tools env (compile_command env w) (written env w code) = Spawned pc ->
  (exists o, compile_outcome (compile_command env w) pc = CompileSuccess o) ->
  tools env (run_command env w) (leaves pc) = Spawned pe ->
  overruns 5000 pe = true ->
  (forall w1, scratch w1 = leaves pc ->
     exists w2,
       executeJava (tools env) (allocate env (clock w)) (tempDir env) w1 =
         (Ok (mkExec (or_else (out pe) (err pe)) false), w2)) /\
  exists w',
    compile_route env body w =
      (Ok (ok_response true (or_else (out pe) (err pe))
             (elapsed 10000 pc + 5000)), w').
Proof.
  intros Ha Hw Hc Hok He Hover. split.
  - intros w1 H1. eexists. apply executeJava_spawned. by rewrite H1.
  - rewrite (route_executed env body w code Ha Hw pc Hc Hok pe He).
    eexists. do 3 f_equal. unfold elapsed. unfold overruns in Hover.
    destruct (lifetime pe); [by rewrite Hover | done].
Qed.

Lemma C2_overrun_witness :
  exists w',
    compile_route
      (mkEnv (js "/tmp") (Example.tools_running Example.loops) (js "k3x9q2m1z"))
      (Example.request (js "class Main { }")) Example.w0 =
      (Ok (ok_response true [] 5900), w').
Proof.
  set (env := mkEnv (js "/tmp") (Example.tools_running Example.loops)
                (js "k3x9q2m1z")).
  apply (C2_overrun_is_reported_completed env
           (Example.request (js "class Main { }")) Example.w0
           (js "class Main { }")
           (mkProcess (Some 900) 0 [] []
              (written env Example.w0 (js "class Main { }")))
           (Example.loops (written env Example.w0 (js "class Main { }")))).
  - split; [apply lookup_singleton_eq |].
    split; [done |]. split; by vm_compute.
  - intros m. by vm_compute.
  - reflexivity.
  - by exists [].
  - reflexivity.
  - reflexivity.
Defined.

(** C1, as the code has it: when the spawn of the compiler throws, the
    [catch] block answers 500 and deletes nothing: the source file the
    request wrote is still in the scratch directory when the response is
    returned. *)
Theorem C1_internal_error_keeps_source_file (env : Env)
    (body : gmap string value) (w : World) (code message : jsstring) :
  accepted body code -> writable env w ->
  tools env (compile_command env w) (written env w code) = SpawnThrows message ->
  exists w',
    compile_route env body w = (Ok (server_error message), w') /\
    scratch w' !! javaFile env w = Some (File (ensureMainClass code) (clock w)).
Proof.
  intros Ha Hw Hc.
  rewrite (route_compile_throws env body w code Ha Hw message Hc).
  eexists. split; [done |]. apply lookup_insert_eq.
Qed.

Lemma C1_internal_error_witness :
  let env := mkEnv (js "/tmp") Example.tools_unavailable (js "k3x9q2m1z") in
  exists w',
    compile_route env (Example.request Example.hi) Example.w0 =
      (Ok (server_error (js "spawn ENOMEM")), w') /\
    scratch w' !! javaFile env Example.w0 =
      Some (File (ensureMainClass Example.hi) 1700000000000).
Proof.
  intros env.
  apply (C1_internal_error_keeps_source_file env
           (Example.request Example.hi) Example.w0 Example.hi
           (js "spawn ENOMEM")).
  - split; [apply lookup_singleton_eq |].
    split; [done |]. split; by vm_compute.
  - intros m. by vm_compute.
  - reflexivity.
Defined.

(** ** The shape of the responses *)

Lemma no_code_shape : error_shape no_code.
Proof. repeat split; eauto. Qed.

Lemma too_long_shape : error_shape too_long.
Proof. repeat split; eauto. Qed.

Lemma restricted_shape : error_shape restricted.
Proof. repeat split; eauto. Qed.

Lemma server_error_shape (message : jsstring) :
  error_shape (server_error message).
Proof. repeat split; eauto. Qed.

Lemma ok_response_shape (success : bool) (text : jsstring) (ms : Z) :
  timed_shape (ok_response success text ms) ms.
Proof. repeat split; eauto. Qed.

(** Validation and the scan either let a code through or answer 400 in
    the world they found. *)
Lemma route_validation (env : Env) (body : gmap string value) (w : World) :
  (exists code, accepted body code) \/
  (exists r, compile_route env body w = (Ok r, w) /\ status r = 400 /\
             error_shape r).
Proof.
  unfold accepted, compile_route, bind, Date_now, ret, field.
  destruct (body !! "code"%string) as [v |];
    [| right; exists no_code; auto using no_code_shape].
  destruct v as [| | b | n | s |];
    try (right; exists no_code; split;
         [by rewrite ?orb_true_r | auto using no_code_shape]).
  destruct s as [|c s]; [right; exists no_code; auto using no_code_shape |].
  cbn [truthy is_string typeof negb orb as_string].
  destruct (10000 <? Z.of_nat (length (c :: s))) eqn:Hlen;
    [right; exists too_long; auto using too_long_shape |].
  destruct (containsMaliciousCode (c :: s)) eqn:Hscan;
    [right; exists restricted; auto using restricted_shape |].
  left. exists (c :: s). apply Z.ltb_ge in Hlen. done.
Qed.

(** C7, as the code has it: the route always answers; every response
    carries [success] (a boolean) and [output] (a string); a response with
    status 200 also carries [executionTime], the milliseconds since the
    request was received, and no [error]; a response with status 400 or
    500 carries [error] (a string) and no [executionTime]. *)
Theorem C7_response_shapes (env : Env) (body : gmap string value) (w : World) :
  exists r w',
    compile_route env body w = (Ok r, w') /\
    ((status r = 200 /\ timed_shape r (clock w' - clock w)) \/
     ((status r = 400 \/ status r = 500) /\ error_shape r)).
Proof.
  destruct (route_validation env body w) as [[code Ha] | (r & Hr & Hs & Hsh)];
    [| exists r, w; split; [done | right; split; [by left | done]]].
  destruct (scratch w !! javaFile env w) as [[c0 m0 | m] |] eqn:Hfile.
  2: { destruct (route_write_throws env body w code Ha m Hfile) as [msg Hr].
       exists (server_error msg), w. split; [done |].
       right. split; [by right | apply server_error_shape]. }
  all: assert (writable env w) as Hw by (intros m; by rewrite Hfile).
  all: destruct (tools env (compile_command env w) (written env w code))
         as [msg | pc] eqn:Hc.
  all: try (rewrite (route_compile_throws env body w code Ha Hw msg Hc);
            do 2 eexists; split; [done |];
            right; split; [by right | apply server_error_shape]).
  all: destruct (compile_outcome (compile_command env w) pc) as [o | e] eqn:Ho.
  all: try (rewrite (route_compile_fails env body w code Ha Hw pc Hc e Ho);
            do 2 eexists; split; [done |]; left; split; [done |];
            cbn [clock];
            replace (clock w + elapsed 10000 pc - clock w)
              with (elapsed 10000 pc) by lia;
            apply ok_response_shape).
  all: assert (exists o, compile_outcome (compile_command env w) pc
                         = CompileSuccess o) as Hok by eauto.
  all: destruct (tools env (run_command env w) (leaves pc)) as [msg | pe] eqn:He.
  all: try (rewrite (route_run_throws env body w code Ha Hw pc Hc Hok msg He);
            do 2 eexists; split; [done |];
            right; split; [by right | apply server_error_shape]).
  all: rewrite (route_executed env body w code Ha Hw pc Hc Hok pe He);
       do 2 eexists; split; [done |]; left; split; [done |];
       cbn [clock];
       replace (clock w + elapsed 10000 pc + elapsed 5000 pe - clock w)
         with (elapsed 10000 pc + elapsed 5000 pe) by lia;
       apply ok_response_shape.
Qed.

(** C7 fails as stated: the response to a body without [code] has status
    400 and no [executionTime]. *)
Lemma C7_rejection_has_no_executionTime :
  compile_route Example.env0 ∅ Example.w0 = (Ok no_code, Example.w0) /\
  status no_code = 400 /\
  has_prop "executionTime" (payload no_code) = false.
Proof. by vm_compute. Qed.

(** ** Reaper *)

Lemma swept_idem (now : Z) (o : option entry) :
  (o ≫= swept now) ≫= swept now = o ≫= swept now.
Proof.
  destruct o as [[c m | m] |]; simpl; try done.
  destruct (now - m >? maxAge) eqn:E; simpl; by rewrite ?E.
Qed.

Lemma sweep_file_spec (now : Z) (file : jsstring) (w : World) :
  exists d,
    sweep_file now file w = (Ok tt, with_scratch d w) /\
    forall name,
      d !! name =
        if decide (name = file) then scratch w !! name ≫= swept now
        else scratch w !! name.
Proof.
  unfold sweep_file, try_catch, bind, statSync_mtimeMs, unlinkSync, ret.
  destruct w as [d t l]. cbn [scratch].
  destruct (d !! file) as [[c m | m] |] eqn:E; cbn [mtime].
  - destruct (now - m >? maxAge) eqn:Hold; cbn [scratch]; rewrite ?E.
    + exists (delete file d). split; [done |].
      intros name. rewrite lookup_delete.
      destruct (decide (file = name)); case_decide; subst; try done.
      rewrite E. simpl. by rewrite Hold.
    + exists d. split; [done |].
      intros name. case_decide; subst; [| done].
      rewrite E. simpl. by rewrite Hold.
  - exists d. split.
    + destruct (now - m >? maxAge); cbn [scratch]; by rewrite ?E.
    + intros name. case_decide; subst; [by rewrite E | done].
  - exists d. split; [done |].
    intros name. case_decide; subst; [by rewrite E | done].
Qed.

Lemma forEach_sweep_spec (now : Z) (files : list jsstring) (w : World) :
  exists d,
    forEach (sweep_file now) files w = (Ok tt, with_scratch d w) /\
    forall name,
      d !! name =
        if decide (name ∈ files) then scratch w !! name ≫= swept now
        else scratch w !! name.
Proof.
  revert w. induction files as [|file files IH]; intros w.
  - exists (scratch w). split; [by destruct w |].
    intros name. case_decide as H; [by apply elem_of_nil in H | done].
  - destruct (sweep_file_spec now file w) as (d1 & Hrun1 & Hd1).
    destruct (IH (with_scratch d1 w)) as (d2 & Hrun2 & Hd2).
    exists d2. split.
    + cbn [forEach]. unfold bind. by rewrite Hrun1, Hrun2.
    + intros name. rewrite Hd2. cbn [scratch with_scratch]. rewrite Hd1.
      destruct (decide (name = file)) as [Heq | Hne];
        destruct (decide (name ∈ files));
        destruct (decide (name ∈ file :: files)) as [Hin | Hnin];
        try done; try (by apply swept_idem);
        try (destruct Hnin; subst; by constructor).
      apply elem_of_cons in Hin as [? | ?]; done.
Qed.

(** C9, as the code has it: a sweep never throws and changes nothing but
    the scratch directory; an entry that is a regular file is removed
    exactly when the clock exceeds its modification time by more than
    [maxAge] (5 minutes) and is kept unchanged otherwise; an entry that is
    a directory is kept whatever its age; and the loop over a listing
    skips, without an error, every listed name that is no longer in the
    directory. *)
Theorem C9_sweep_removes_old_files (w : World) :
  (exists w',
     cleanupTempFiles w = (Ok tt, w') /\
     clock w' = clock w /\ spawned w' = spawned w /\
     forall name, scratch w' !! name = scratch w !! name ≫= swept (clock w)) /\
  (forall now files,
     exists w',
       forEach (sweep_file now) files w = (Ok tt, w') /\
       forall name,
         scratch w' !! name =
           if decide (name ∈ files) then scratch w !! name ≫= swept now
           else scratch w !! name).
Proof.
  split.
  - unfold cleanupTempFiles, try_catch, bind, readdirSync, Date_now.
    destruct (forEach_sweep_spec (clock w) (map_to_list (scratch w)).*1 w)
      as (d & Hrun & Hd).
    rewrite Hrun. exists (with_scratch d w). repeat split.
    intros name. cbn [scratch with_scratch]. rewrite Hd.
    case_decide as Hin; [done |].
    destruct (scratch w !! name) as [e |] eqn:E; [| done].
    destruct Hin. apply list_elem_of_fmap. exists (name, e).
    split; [done |]. by apply elem_of_map_to_list.
  - intros now files.
    destruct (forEach_sweep_spec now files w) as (d & Hrun & Hd).
    by exists (with_scratch d w).
Qed.

(** C9 fails as stated: an entry that is a directory older than [maxAge]
    is still in the scratch directory after the sweep. *)
Lemma C9_old_directory_survives_sweep :
  let w := mkWorld {[ js "pkg" := Dir 1700000000000 ]} 1700000900000 [] in
  scratch w !! js "pkg" = Some (Dir 1700000000000) /\
  clock w - 1700000000000 > maxAge /\
  (cleanupTempFiles w).1 = Ok tt /\
  scratch (cleanupTempFiles w).2 !! js "pkg" = Some (Dir 1700000000000).
Proof. by vm_compute. Qed.

(** ** The example of the bare statement *)

(** C3, as the code has it: the bare statement is wrapped in the
    template, which declares [public class Main]; the file it is written
    to is [Main_<time>_<random>.java], never [Main.java], and the class the
    run step would ask for is [Main_<time>_<random>], never [Main].  Under
    a compiler that keeps to the rule that a public class lives in a file
    of its own name, the request is answered with [success: false] and the
    compiler's error, and the run step is not reached. *)
Theorem C3_wrapped_statement_fails_to_compile :
  ensureMainClass Example.hi = wrapper_head ++ Example.hi ++ wrapper_tail /\
  occurs_in (js "public class Main") (ensureMainClass Example.hi) /\
  (forall env w,
     javaFile env w <> js "Main.java" /\ allocate env (clock w) <> js "Main") /\
  compile_route Example.env0 (Example.request Example.hi) Example.w0 =
    (Ok (ok_response false
           (formatCompilationError
              (js "/tmp/javalab-temp/Main_1700000000000_k3x9q2m1z.java:1: error: class Main is public, should be declared in a file named Main.java"
               ++ LF ++ js "1 error" ++ LF))
           900),
     mkWorld ∅ 1700000000900 [compile_command Example.env0 Example.w0]).
Proof.
  split; [by vm_compute |].
  split; [apply includes_spec; by vm_compute |].
  split; [| by vm_compute].
  intros env w. unfold javaFile, allocate.
  split; intros H; vm_compute in H; discriminate.
Qed.

(** ** Paths in the compiler's error text *)

Lemma star_total (p : N -> bool) (s : jsstring) :
  exists n, star p (match_len []) s = Some n.
Proof.
  induction s as [|c s [n IH]]; cbn [star]; [by exists O |].
  destruct (p c); [| by exists O]. rewrite IH. by exists (S n).
Qed.

Lemma match_tmp_path (s : jsstring) :
  if tmp_at s then exists n, match_len tmp_path s = Some (S n)
  else match_len tmp_path s = None.
Proof.
  unfold tmp_path, lit, chr.
  destruct s as [|c0 [|c1 [|c2 [|c3 [|c4 [|x s]]]]]];
    cbn -[N.eqb path_char star]; try done;
    repeat (destruct (_ =? _)%N; cbn -[N.eqb path_char star]; try done).
  destruct (path_char x); [| done].
  destruct (star_total path_char s) as [n Hn]. cbn in Hn. rewrite Hn. cbn. eauto.
Qed.

Lemma covers_tail (r : regex) (c : N) (s : jsstring) :
  covers r (c :: s) -> covers r s.
Proof. intros H a b ->. by apply (H (c :: a) b). Qed.

Lemma test_tmp_path_cons (c : N) (s : jsstring) :
  test tmp_path (c :: s) = tmp_at (c :: s) || test tmp_path s.
Proof.
  cbn [test]. pose proof (match_tmp_path (c :: s)) as H.
  destruct (tmp_at (c :: s)); [by destruct H as [n ->] | by rewrite H].
Qed.

Lemma test_tmp_path_false (s : jsstring) :
  test tmp_path s = false <-> forall a b, s = a ++ b -> tmp_at b = false.
Proof.
  induction s as [|c s IH].
  - split; [| done]. intros _ a b H.
    symmetry in H. apply app_eq_nil in H as [_ ->]. done.
  - rewrite test_tmp_path_cons, orb_false_iff, IH. split.
    + intros [H1 H2] [|c' a] b Hab; simpl in Hab; [by subst |].
      injection Hab as -> ->. by apply (H2 a b).
    + intros H. split; [by apply (H [] (c :: s)) |].
      intros a b ->. by apply (H (c :: a) b).
Qed.

Section Replace.

Variables (r : regex) (h : N) (by_ : jsstring).

(** The replacement text has no [/] and does not start like [tmp/]. *)
Hypothesis by_clean : forall s, test tmp_path ((h :: by_) ++ s) = test tmp_path s.
Hypothesis by_head : h <> 47%N /\ h <> 116%N /\ h <> 109%N /\ h <> 112%N.
(** [r] matches nothing that starts with a colon or a space. *)
Hypothesis r_path : forall d s, path_char d = false -> match_len r (d :: s) = None.

Lemma replace_head (s : jsstring) (a : N) (out : jsstring) :
  replace_from r (h :: by_) O s = a :: out -> a <> h ->
  exists s', s = a :: s' /\ out = replace_from r (h :: by_) O s'.
Proof.
  destruct s as [|c s]; [done |]. cbn [replace_from].
  destruct (match_len r (c :: s)) as [[|n] |]; intros [= -> <-]; try done; eauto.
Qed.

Lemma replace_keeps_miss (c : N) (s : jsstring) :
  tmp_at (c :: s) = false ->
  tmp_at (c :: replace_from r (h :: by_) O s) = false.
Proof.
  intros Hs. apply not_true_is_false.
  destruct by_head as (h1 & h2 & h3 & h4).
  destruct (replace_from r (h :: by_) O s)
    as [|c1 [|c2 [|c3 [|c4 [|x out]]]]] eqn:E; try done.
  cbn [tmp_at]. intros Hout.
  destruct (N.eqb_spec 47 c); [subst c | done].
  destruct (N.eqb_spec 116 c1); [subst c1 | done].
  destruct (N.eqb_spec 109 c2); [subst c2 | done].
  destruct (N.eqb_spec 112 c3); [subst c3 | done].
  destruct (N.eqb_spec 47 c4); [subst c4 | done].
  apply replace_head in E as (s1 & -> & E); [| done].
  symmetry in E. apply replace_head in E as (s2 & -> & E); [| done].
  symmetry in E. apply replace_head in E as (s3 & -> & E); [| done].
  symmetry in E. apply replace_head in E as (s4 & -> & E); [| done].
  symmetry in E. destruct s4 as [|d s5]; [done |].
  cbn [tmp_at] in Hs. rewrite !N.eqb_refl in Hs.
  cbn [replace_from] in E. rewrite (r_path d s5 Hs) in E.
  injection E as -> _. congruence.
Qed.

Lemma replace_from_clean (s : jsstring) (skip : nat) :
  covers r s -> test tmp_path (replace_from r (h :: by_) skip s) = false.
Proof.
  revert skip. induction s as [|c s IH]; intros skip Hc; [done |].
  cbn [replace_from]. destruct skip as [|k].
  - destruct (match_len r (c :: s)) as [[|n] |] eqn:E.
    + rewrite test_tmp_path_cons, (IH O (covers_tail _ _ _ Hc)), orb_false_r.
      apply replace_keeps_miss. apply not_true_is_false. intros Hat.
      destruct (Hc [] (c :: s) eq_refl Hat) as [n Hn]. congruence.
    + rewrite by_clean. apply IH. by apply covers_tail in Hc.
    + rewrite test_tmp_path_cons, (IH O (covers_tail _ _ _ Hc)), orb_false_r.
      apply replace_keeps_miss. apply not_true_is_false. intros Hat.
      destruct (Hc [] (c :: s) eq_refl Hat) as [n Hn]. congruence.
  - apply IH. by apply covers_tail in Hc.
Qed.

End Replace.

Lemma tmp_at_head (c : N) (s : jsstring) :
  c <> 47%N -> tmp_at (c :: s) = false.
Proof.
  intros H. destruct s as [|c1 [|c2 [|c3 [|c4 [|x s]]]]]; cbn [tmp_at]; try done.
  by destruct (N.eqb_spec 47 c).
Qed.

Lemma path_char_slash (d : N) : path_char d = false -> d <> 47%N.
Proof. by intros H ->. Qed.

Lemma test_no_slash (u s : jsstring) :
  forallb (fun c => negb (47 =? c)%N) u = true ->
  test tmp_path (u ++ s) = test tmp_path s.
Proof.
  induction u as [|c u IH]; [done |]. cbn [forallb app].
  intros [Hc Hu]%andb_true_iff. rewrite test_tmp_path_cons, (IH Hu).
  rewrite tmp_at_head; [done |]. intros ->. done.
Qed.

Lemma tmp_path_covers (s : jsstring) : covers tmp_path s.
Proof.
  intros a b _ Hat. pose proof (match_tmp_path b) as H. by rewrite Hat in H.
Qed.

Lemma tmp_path_first (d : N) (s : jsstring) :
  path_char d = false -> match_len tmp_path (d :: s) = None.
Proof.
  intros Hd. pose proof (match_tmp_path (d :: s)) as H.
  by rewrite (tmp_at_head d s (path_char_slash d Hd)) in H.
Qed.

Lemma clean_covers (r : regex) (s : jsstring) :
  test tmp_path s = false -> covers r s.
Proof.
  intros H a b Hab Hat. rewrite test_tmp_path_false in H.
  by rewrite (H a b Hab) in Hat.
Qed.

(** A pattern whose first character is a letter matches nothing that
    starts with a colon or a space. *)
Lemma letter_first (p : N -> bool) (r : regex) (d : N) (s : jsstring) :
  (forall c, p c = true -> path_char c = true) ->
  path_char d = false -> match_len (Item p One :: r) (d :: s) = None.
Proof.
  intros Hp Hd. cbn. destruct (p d) eqn:E; [| done].
  apply Hp in E. congruence.
Qed.

Lemma fold_case_letter (l c : N) :
  (65 <= l <= 90)%N -> (fold_case c =? l)%N = true -> path_char c = true.
Proof.
  intros Hl. unfold fold_case.
  destruct ((97 <=? c)%N && (c <=? 122)%N) eqn:E; intros H%N.eqb_eq.
  - apply andb_true_iff in E as [E1%N.leb_le E2%N.leb_le].
    unfold path_char, is_space.
    repeat match goal with
           | |- context [(?a =? ?b)%N] =>
               destruct (N.eqb_spec a b); [lia |]
           | |- context [(?a <=? ?b)%N] =>
               destruct (N.leb_spec a b); try lia
           end; done.
  - subst l. unfold path_char, is_space.
    repeat match goal with
           | |- context [(?a =? ?b)%N] =>
               destruct (N.eqb_spec a b); [lia |]
           | |- context [(?a <=? ?b)%N] =>
               destruct (N.leb_spec a b); try lia
           end; done.
Qed.

Lemma replace_tmp_path_clean (s : jsstring) :
  test tmp_path (replace tmp_path (js "Main.java") s) = false.
Proof.
  apply (replace_from_clean tmp_path 77 (js "ain.java")).
  - intros t. by apply (test_no_slash (js "Main.java")).
  - done.
  - apply tmp_path_first.
  - apply tmp_path_covers.
Qed.

Lemma replace_error_clean (s : jsstring) :
  test tmp_path s = false ->
  test tmp_path (replace (lit_i "error:") (cross_mark ++ js " Error:") s) = false.
Proof.
  intros H. apply (replace_from_clean _ 10060 (js " Error:")).
  - intros t. by apply (test_no_slash (cross_mark ++ js " Error:")).
  - done.
  - intros d t. apply letter_first. intros c. by apply fold_case_letter.
  - by apply clean_covers.
Qed.

Lemma replace_warning_clean (s : jsstring) :
  test tmp_path s = false ->
  test tmp_path
    (replace (lit_i "warning:") (warning_sign ++ js " Warning:") s) = false.
Proof.
  intros H. apply (replace_from_clean _ 9888 (65039%N :: js " Warning:")).
  - intros t. by apply (test_no_slash (warning_sign ++ js " Warning:")).
  - done.
  - intros d t. apply letter_first. intros c. by apply fold_case_letter.
  - by apply clean_covers.
Qed.

Lemma replace_line_clean (s : jsstring) :
  test tmp_path s = false ->
  test tmp_path (replace (lit "Main.java:") (js "Line ") s) = false.
Proof.
  intros H. apply (replace_from_clean _ 76 (js "ine ")).
  - intros t. by apply (test_no_slash (js "Line ")).
  - done.
  - intros d t. apply letter_first. by intros c <-%N.eqb_eq.
  - by apply clean_covers.
Qed.

Lemma tmp_at_app_miss (b : jsstring) (d : N) (t : jsstring) :
  path_char d = false -> tmp_at b = false -> tmp_at (b ++ d :: t) = false.
Proof.
  intros Hd.
  destruct b as [|c0 [|c1 [|c2 [|c3 [|c4 [|x b]]]]]]; cbn [tmp_at app];
    try done;
    destruct t as [|t0 [|t1 [|t2 [|t3 [|t4 t]]]]]; cbn [tmp_at]; try done;
    repeat match goal with
           | |- context [(?a =? ?b)%N] =>
               destruct (N.eqb_spec a b); [subst | done]
           end; done.
Qed.

Lemma test_app_miss (s : jsstring) (d : N) (t : jsstring) :
  path_char d = false ->
  test tmp_path s = false -> test tmp_path (d :: t) = false ->
  test tmp_path (s ++ d :: t) = false.
Proof.
  intros Hd Hs Ht. induction s as [|c s IH]; [done |].
  rewrite test_tmp_path_cons in Hs. apply orb_false_iff in Hs as [H1 H2].
  cbn [app]. rewrite test_tmp_path_cons, (IH H2), orb_false_r.
  by apply (tmp_at_app_miss (c :: s)).
Qed.

(** Nothing that the pattern [/tmp/...] matches is left in the formatted
    text of a compilation error. *)
Lemma formatCompilationError_clean (error : jsstring) :
  test tmp_path (formatCompilationError error) = false.
Proof.
  unfold formatCompilationError.
  rewrite test_no_slash by done.
  apply (test_app_miss _ 10); [done | | done].
  apply replace_line_clean, replace_warning_clean, replace_error_clean,
    replace_tmp_path_clean.
Qed.

Lemma tmp_at_app_hit (p q : jsstring) :
  tmp_at p = true -> tmp_at (p ++ q) = true.
Proof.
  destruct p as [|c0 [|c1 [|c2 [|c3 [|c4 [|x p]]]]]]; done.
Qed.

Lemma occurs_in_hit (p s : jsstring) :
  tmp_at p = true -> occurs_in p s -> test tmp_path s = true.
Proof.
  intros Hp (a & b & ->). induction a as [|c a IH].
  - destruct p as [|c p]; [done |]. cbn [app]. rewrite test_tmp_path_cons.
    change (c :: p ++ b) with ((c :: p) ++ b). by rewrite tmp_at_app_hit.
  - cbn [app]. rewrite test_tmp_path_cons, IH. apply orb_true_r.
Qed.

(** On a host whose temporary directory is [/tmp], no path into the
    scratch directory is part of the formatted text. *)
Lemma scratch_path_stripped (env : Env) (error name : jsstring) :
  tmpdir env = js "/tmp" ->
  ~ occurs_in (tempDir env) (formatCompilationError error) /\
  ~ occurs_in (path_join (tempDir env) name) (formatCompilationError error).
Proof.
  intros Htmp. unfold path_join, tempDir, path_join. rewrite Htmp.
  split; intros H; apply occurs_in_hit in H; try done;
    by rewrite formatCompilationError_clean in H.
Qed.

(** C6, as the code has it: on a host whose temporary directory is not
    [/tmp], here [/var/scratch], the pattern [/tmp/...] matches nothing in
    the compiler's error text and the absolute path of the source file in
    the scratch directory is part of the [output] of the response. *)
Theorem C6_scratch_path_outside_tmp_is_disclosed :
  let env :=
    mkEnv (js "/var/scratch")
      (Example.tools_for (js "/var/scratch/javalab-temp") Example.prints_hi)
      (js "k3x9q2m1z") in
  tempDir env = js "/var/scratch/javalab-temp" /\
  exists text w',
    compile_route env (Example.request Example.hi) Example.w0 =
      (Ok (ok_response false text 900), w') /\
    occurs_in
      (js "/var/scratch/javalab-temp/Main_1700000000000_k3x9q2m1z.java") text.
Proof.
  intros env. split; [by vm_compute |].
  eexists. eexists. split; [by vm_compute |].
  apply includes_spec. by vm_compute.
Qed.

(** * Further properties *)

(** ** The matcher against the texts a pattern matches *)

Lemma star_sound (p : N -> bool) (k : jsstring -> option nat) (s : jsstring)
    (n : nat) :
  star p k s = Some n ->
  exists v u j,
    s = v ++ u /\ Forall (fun c => p c = true) v /\ k u = Some j /\
    n = (length v + j)%nat.
Proof.
  revert n. induction s as [|c s IH]; intros n; cbn [star].
  - intros H. by exists [], [], n.
  - destruct (p c) eqn:Hc.
    + destruct (star p k s) as [m |] eqn:E.
      * intros [= <-]. destruct (IH m eq_refl) as (v & u & j & -> & Hv & Hk & ->).
        exists (c :: v), u, j. repeat split; [by constructor | done].
      * intros H. by exists [], (c :: s), n.
    + intros H. by exists [], (c :: s), n.
Qed.

Lemma star_complete (p : N -> bool) (k : jsstring -> option nat)
    (v u : jsstring) :
  Forall (fun c => p c = true) v -> is_Some (k u) -> is_Some (star p k (v ++ u)).
Proof.
  intros Hv Hk. induction Hv as [|c v Hc Hv IH]; cbn [app].
  - destruct u as [|c u]; cbn [star]; [done |].
    destruct (p c); [| done]. by destruct (star p k u).
  - cbn [star]. rewrite Hc. by destruct IH as [m ->].
Qed.

Lemma match_len_sound (r : regex) (s : jsstring) (n : nat) :
  match_len r s = Some n ->
  exists u b, s = u ++ b /\ length u = n /\ matches r u.
Proof.
  revert s n. induction r as [|[p q] r IH]; intros s n; cbn [match_len qt cls].
  - intros [= <-]. by exists [], s.
  - destruct q.
    + destruct s as [|c s]; [done |]. destruct (p c) eqn:Hc; [| done].
      destruct (match_len r s) as [m |] eqn:E; [| done]. intros [= <-].
      destruct (IH s m E) as (u & b & -> & <- & Hu).
      exists (c :: u), b. repeat split. cbn. eauto 6.
    + intros (v & u & j & -> & Hv & Hk & ->)%star_sound.
      destruct (IH u j Hk) as (u1 & b & -> & <- & Hu).
      exists (v ++ u1), b. rewrite app_assoc, length_app. repeat split.
      cbn. eauto 6.
    + destruct s as [|c s]; [done |]. destruct (p c) eqn:Hc; [| done].
      destruct (star p (match_len r) s) as [m |] eqn:E; [| done]. intros [= <-].
      apply star_sound in E as (v & u & j & -> & Hv & Hk & ->).
      destruct (IH u j Hk) as (u1 & b & -> & <- & Hu).
      exists (c :: v ++ u1), b. rewrite app_assoc. repeat split.
      * cbn. by rewrite length_app.
      * cbn. eauto 8.
Qed.

Lemma match_len_complete (r : regex) (u b : jsstring) :
  matches r u -> is_Some (match_len r (u ++ b)).
Proof.
  revert u. induction r as [|[p q] r IH]; intros u; cbn [matches match_len qt cls].
  - intros ->. done.
  - destruct q.
    + intros (c & u' & -> & Hc & Hu). cbn [app]. rewrite Hc.
      by destruct (IH u' Hu) as [m ->].
    + intros (v & u' & -> & Hv & Hu). rewrite <- app_assoc.
      by apply star_complete, IH.
    + intros (c & v & u' & -> & Hc & Hv & Hu). cbn [app]. rewrite Hc.
      rewrite <- app_assoc.
      by destruct (star_complete p (match_len r) v (u' ++ b) Hv (IH u' Hu))
        as [m ->].
Qed.

(** [test] answers [true] exactly when a text the pattern matches occurs. *)
Lemma test_matches (r : regex) (s : jsstring) :
  test r s = true <-> exists u, matches r u /\ occurs_in u s.
Proof.
  induction s as [|c s IH]; cbn [test].
  - destruct (match_len r []) as [n |] eqn:E.
    + split; [intros _ | done].
      destruct (match_len_sound r [] n E) as (u & b & Hs & _ & Hu).
      symmetry in Hs. apply app_eq_nil in Hs as [-> ->].
      exists []. split; [done | by exists [], []].
    + split; [done |]. intros (u & Hu & a & b & Hs).
      symmetry in Hs. apply app_eq_nil in Hs as [-> [-> ->]%app_eq_nil].
      destruct (match_len_complete r [] [] Hu) as [m Hm]. cbn in Hm. congruence.
  - destruct (match_len r (c :: s)) as [n |] eqn:E.
    + split; [intros _ | done].
      destruct (match_len_sound r _ n E) as (u & b & Hs & _ & Hu).
      exists u. split; [done | by exists [], b].
    + rewrite IH. split.
      * intros (u & Hu & a & b & ->). exists u. split; [done |].
        by exists (c :: a), b.
      * intros (u & Hu & a & b & Hs). exists u. split; [done |].
        destruct a as [|c' a]; cbn in Hs.
        -- destruct (match_len_complete r u b Hu) as [m Hm]. congruence.
        -- injection Hs as -> ->. by exists a, b.
Qed.

(** ** The denylist *)

Lemma matches_chr (t : jsstring) (r : regex) (u : jsstring) :
  matches ((chr <$> t) ++ r) u <-> exists u', u = t ++ u' /\ matches r u'.
Proof.
  revert u. induction t as [|a t IH]; intros u.
  - cbn [fmap list_fmap app]. split; [by exists u | by intros (u' & -> & H)].
  - cbn [fmap list_fmap app matches chr qt cls]. split.
    + intros (c & u1 & -> & ->%N.eqb_eq & (u' & -> & H)%IH). by exists u'.
    + intros (u' & -> & H). exists a, (t ++ u'). repeat split.
      * apply N.eqb_refl.
      * apply IH. by exists u'.
Qed.

Lemma matches_lit (t : string) (u : jsstring) :
  matches (lit t) u <-> u = js t.
Proof.
  unfold lit. rewrite <- (app_nil_r (chr <$> js t)), matches_chr. cbn. split.
  - intros (u' & -> & ->). by rewrite app_nil_r.
  - intros ->. exists []. by rewrite app_nil_r.
Qed.

Lemma literal_in_denylist (t : string) :
  t ∈ restricted_literals -> lit t ∈ dangerousPatterns.
Proof.
  unfold restricted_literals, dangerousPatterns. intros H.
  repeat (apply elem_of_cons in H as [-> | H];
          [repeat first [apply list_elem_of_here | apply list_elem_of_further] |]).
  by apply elem_of_nil in H.
Qed.

Lemma denylist_matches (u : jsstring) :
  (exists p, p ∈ dangerousPatterns /\ matches p u) <-> restricted_text u.
Proof.
  split.
  - intros (p & Hp & Hu). unfold dangerousPatterns in Hp.
    repeat (apply elem_of_cons in Hp as [-> | Hp];
            [try (apply matches_lit in Hu; left; eexists; split; [| exact Hu];
                  unfold restricted_literals;
                  repeat first [apply list_elem_of_here
                               | apply list_elem_of_further]) |]).
    + unfold lit in Hu. apply matches_chr in Hu as (u' & -> & Hu).
      cbn in Hu. destruct Hu as (c & u1 & -> & Hc & ->).
      right. left. by exists c.
    + unfold lit in Hu. apply matches_chr in Hu as (u' & -> & Hu).
      cbn [app matches qt cls] in Hu. destruct Hu as (ws & u1 & -> & Hws & Hu).
      apply (matches_lit "(") in Hu as ->.
      right. right. by exists ws.
    + by apply elem_of_nil in Hp.
  - intros [(t & Ht & ->) | [(c & Hc & ->) | (ws & Hws & ->)]].
    + exists (lit t). split; [by apply literal_in_denylist | by apply matches_lit].
    + exists (lit "native" ++ [Item is_space One]). split.
      * unfold dangerousPatterns.
        repeat first [apply list_elem_of_here | apply list_elem_of_further].
      * apply matches_chr. exists [c]. split; [done |]. cbn. eauto.
    + exists (lit "synchronized" ++ [Item is_space Star] ++ lit "("). split.
      * unfold dangerousPatterns.
        repeat first [apply list_elem_of_here | apply list_elem_of_further].
      * apply matches_chr. exists (ws ++ js "("). split; [done |].
        cbn [app matches qt cls]. exists ws, (js "("). repeat split; [done |].
        by apply matches_lit.
Qed.

Lemma scan_occurrence (code : jsstring) :
  containsMaliciousCode code = true <->
  exists u, restricted_text u /\ occurs_in u code.
Proof.
  unfold containsMaliciousCode. rewrite first_match_Exists, Exists_exists.
  split.
  - intros (p & Hp & (u & Hu & Hocc)%test_matches).
    exists u. split; [| done]. apply denylist_matches. eauto.
  - intros (u & (p & Hp & Hu)%denylist_matches & Hocc).
    exists p. split; [done |]. apply test_matches. eauto.
Qed.

(** X1: [containsMaliciousCode] answers [true] exactly for the texts in
    which a text of the denylist occurs: one of the thirteen literals,
    [native] followed by one white-space character, or [synchronized],
    any white space and an opening parenthesis. *)
Theorem X1_scan_characterised (code : jsstring) :
  containsMaliciousCode code = true <->
  exists u, restricted_text u /\ occurs_in u code.
Proof. apply scan_occurrence. Qed.

Lemma occurs_in_trans (u s t : jsstring) :
  occurs_in u s -> occurs_in s t -> occurs_in u t.
Proof.
  intros (a & b & ->) (a' & b' & ->). exists (a' ++ a), (b ++ b').
  by rewrite <- !app_assoc.
Qed.

(** X2: a text that the scan blocks stays blocked whatever is put before
    and after it. *)
Theorem X2_scan_monotone (a code b : jsstring) :
  containsMaliciousCode code = true ->
  containsMaliciousCode (a ++ code ++ b) = true.
Proof.
  rewrite !scan_occurrence. intros (u & Hu & Hocc).
  exists u. split; [done |]. apply (occurs_in_trans u code); [done |].
  by exists a, b.
Qed.

Lemma X2_scan_monotone_witness :
  containsMaliciousCode (js "Runtime r; r.exec(cmd);") = true.
Proof.
  apply (X2_scan_monotone (js "Runtime r; r.") (js "exec(") (js "cmd);")).
  by vm_compute.
Defined.

(** ** The formatted text *)

Lemma formatCompilationError_body (error : jsstring) :
  formatCompilationError error =
    format_header ++ format_body error ++ format_tips.
Proof. reflexivity. Qed.

Lemma replace_unmatched (r : regex) (by_ : jsstring) (c : N) (s : jsstring) :
  match_len r (c :: s) = None ->
  replace r by_ (c :: s) = c :: replace r by_ s.
Proof. unfold replace. cbn [replace_from]. by intros ->. Qed.

Lemma replace_no_match (r : regex) (by_ s : jsstring) :
  test r s = false -> replace r by_ s = s.
Proof.
  induction s as [|c s IH]; [done |]. cbn [test].
  destruct (match_len r (c :: s)) eqn:E; [done |]. intros H.
  by rewrite replace_unmatched, IH.
Qed.

Lemma replace_skip (r : regex) (by_ v s : jsstring) :
  replace_from r by_ (length v) (v ++ s) = replace_from r by_ O s.
Proof. induction v as [|c v IH]; [done | apply IH]. Qed.

Lemma replace_matched (r : regex) (by_ : jsstring) (c : N) (v s : jsstring) :
  match_len r (c :: v ++ s) = Some (S (length v)) ->
  replace r by_ (c :: v ++ s) = by_ ++ replace r by_ s.
Proof.
  unfold replace. cbn [replace_from]. intros ->. by rewrite replace_skip.
Qed.

(** The run of path characters is taken whole. *)
Lemma star_greedy (p : N -> bool) (v s : jsstring) :
  Forall (fun c => p c = true) v ->
  match s with [] => True | d :: _ => p d = false end ->
  star p (match_len []) (v ++ s) = Some (length v).
Proof.
  intros Hv Hs. induction Hv as [|c v Hc Hv IH]; cbn [app].
  - destruct s as [|d s]; [done |]. cbn [star]. by rewrite Hs.
  - cbn [star]. by rewrite Hc, IH.
Qed.

Lemma tmp_path_whole (c : N) (p s : jsstring) :
  path_char c = true -> Forall (fun c => path_char c = true) p -> path_end s ->
  match_len tmp_path (js "/tmp/" ++ c :: p ++ s) = Some (6 + length p)%nat.
Proof.
  intros Hc Hp Hs. unfold tmp_path, lit.
  cbn -[N.eqb path_char star]. rewrite !N.eqb_refl. cbn -[path_char star].
  rewrite Hc. change (fun _ : jsstring => Some O) with (match_len []).
  by rewrite star_greedy.
Qed.

Lemma tmp_path_head_replaced (c : N) (p s : jsstring) :
  path_char c = true -> Forall (fun c => path_char c = true) p -> path_end s ->
  replace tmp_path (js "Main.java") (js "/tmp/" ++ c :: p ++ s) =
    js "Main.java" ++ replace tmp_path (js "Main.java") s.
Proof.
  intros Hc Hp Hs.
  change (js "/tmp/" ++ c :: p ++ s)
    with (47%N :: (js "tmp/" ++ c :: p) ++ s).
  apply replace_matched.
  change (47%N :: (js "tmp/" ++ c :: p) ++ s)
    with (js "/tmp/" ++ c :: p ++ s).
  rewrite (tmp_path_whole c p s Hc Hp Hs). by cbn.
Qed.

(** X5: in the first replacement of [formatCompilationError], a [/tmp/]
    path at the head of a text is taken whole, up to the next colon, white
    space or the end of the text, and becomes one [Main.java]. *)
Theorem X5_tmp_path_replaced_whole (c : N) (p s : jsstring) :
  path_char c = true -> Forall (fun c => path_char c = true) p -> path_end s ->
  replace tmp_path (js "Main.java") (js "/tmp/" ++ c :: p ++ s) =
    js "Main.java" ++ replace tmp_path (js "Main.java") s.
Proof. apply tmp_path_head_replaced. Qed.

Lemma X5_tmp_path_witness :
  replace tmp_path (js "Main.java") (js "/tmp/javalab-temp/Main_1.java: x") =
    js "Main.java" ++ replace tmp_path (js "Main.java") (js ": x").
Proof.
  apply (X5_tmp_path_replaced_whole 106 (js "avalab-temp/Main_1.java") (js ": x")).
  - reflexivity.
  - repeat constructor.
  - reflexivity.
Defined.

(** X6: the location that [javac] puts before a message, a path into
    [/tmp] and a colon, becomes [Line ] in the formatted text, and the
    rest of the text is formatted as it would be alone. *)
Theorem X6_location_becomes_Line (c : N) (p rest : jsstring) :
  path_char c = true -> Forall (fun c => path_char c = true) p ->
  format_body (js "/tmp/" ++ c :: p ++ js ":" ++ rest) =
    js "Line " ++ format_body rest.
Proof.
  intros Hc Hp. unfold format_body.
  rewrite (tmp_path_head_replaced c p (js ":" ++ rest) Hc Hp) by done.
  change (js ":" ++ rest) with (58%N :: rest).
  rewrite (replace_unmatched tmp_path) by reflexivity.
  set (r1 := replace tmp_path (js "Main.java") rest).
  change (js "Main.java" ++ 58%N :: r1)
    with (77 :: 97 :: 105 :: 110 :: 46 :: 106 :: 97 :: 118 :: 97 :: 58 :: r1)%N.
  rewrite !(replace_unmatched (lit_i "error:")) by reflexivity.
  set (r2 := replace (lit_i "error:") _ r1).
  rewrite !(replace_unmatched (lit_i "warning:")) by reflexivity.
  set (r3 := replace (lit_i "warning:") _ r2).
  change (77 :: 97 :: 105 :: 110 :: 46 :: 106 :: 97 :: 118 :: 97 :: 58 :: r3)%N
    with (77%N :: js "ain.java:" ++ r3).
  by rewrite replace_matched by reflexivity.
Qed.

Lemma X6_location_witness :
  format_body (js "/tmp/javalab-temp/Main_1.java:3: error: ';' expected") =
    js "Line " ++ format_body (js "3: error: ';' expected").
Proof.
  apply (X6_location_becomes_Line 106 (js "avalab-temp/Main_1.java")
           (js "3: error: ';' expected")).
  - reflexivity.
  - repeat constructor.
Defined.

(** X4: whatever the compiler's text, nothing that starts with [/tmp/]
    and one more character that is neither a colon nor white space occurs
    in the formatted text. *)
Theorem X4_no_tmp_path_in_formatted_text (error : jsstring) (c : N)
    (rest : jsstring) :
  path_char c = true ->
  ~ occurs_in (js "/tmp/" ++ c :: rest) (formatCompilationError error).
Proof.
  intros Hc H. apply occurs_in_hit in H.
  - by rewrite formatCompilationError_clean in H.
  - cbn [tmp_at app js]. exact Hc.
Qed.

Lemma X4_no_tmp_path_witness :
  ~ occurs_in (js "/tmp/javalab-temp")
      (formatCompilationError
         (js "/tmp/javalab-temp/Main_1.java:3: error: ';' expected")).
Proof.
  apply (X4_no_tmp_path_in_formatted_text _ 106 (js "avalab-temp")).
  reflexivity.
Defined.

(** X7: a text in which none of the four patterns matches is passed on
    unchanged, between the header and the tips. *)
Theorem X7_unmatched_text_is_kept (error : jsstring) :
  test tmp_path error = false ->
  test (lit_i "error:") error = false ->
  test (lit_i "warning:") error = false ->
  test (lit "Main.java:") error = false ->
  formatCompilationError error = format_header ++ error ++ format_tips.
Proof.
  intros H1 H2 H3 H4. rewrite formatCompilationError_body. unfold format_body.
  by rewrite (replace_no_match tmp_path), (replace_no_match (lit_i "error:")),
    (replace_no_match (lit_i "warning:")), (replace_no_match (lit "Main.java:")).
Qed.

Lemma X7_unmatched_text_witness :
  formatCompilationError (js "sh: 1: javac: not found") =
    format_header ++ js "sh: 1: javac: not found" ++ format_tips.
Proof.
  apply (X7_unmatched_text_is_kept (js "sh: 1: javac: not found"));
    reflexivity.
Defined.

(** ** The endings of a request *)

(** Validation, in the order of the route. *)
Lemma route_rejects (env : Env) (body : gmap string value) (w : World) :
  (exists code, accepted body code) \/
  exists r, compile_route env body w = (Ok r, w) /\ ending env body w r w.
Proof.
  unfold compile_route, bind, Date_now, ret.
  destruct (negb (truthy (field "code" body))
            || negb (is_string (field "code" body))) eqn:Hv.
  { right. exists no_code. split; [done | by constructor]. }
  apply orb_false_iff in Hv as [Ht Hs].
  destruct (field "code" body) as [| | | | code |] eqn:Hf; try done.
  cbn [as_string]. assert (code <> []) as Hne by (by intros ->).
  destruct (10000 <? Z.of_nat (length code)) eqn:Hlen.
  { right. exists too_long. split; [done |].
    apply (TooLong _ _ _ code); [done | done | by apply Z.ltb_lt]. }
  apply Z.ltb_ge in Hlen.
  destruct (containsMaliciousCode code) eqn:Hscan.
  { right. exists restricted. split; [done |]. by apply (Restricted _ _ _ code). }
  left. exists code. unfold field in Hf.
  destruct (body !! "code"%string) as [v |] eqn:Hb; [| done]. by subst v.
Qed.

(** Every request ends in one of the eight ways. *)
Lemma route_ending (env : Env) (body : gmap string value) (w : World) :
  exists r w', compile_route env body w = (Ok r, w') /\ ending env body w r w'.
Proof.
  destruct (route_rejects env body w) as [[code Ha] | (r & Hr & He)];
    [| by exists r, w].
  destruct (scratch w !! javaFile env w) as [[c0 m0 | m] |] eqn:Hfile.
  2: { destruct (route_write_throws env body w code Ha m Hfile) as [msg Hr].
       exists (server_error msg), w. split; [done |].
       by apply (WriteThrows _ _ _ code msg m). }
  all: assert (writable env w) as Hw by (intros m; by rewrite Hfile).
  all: destruct (tools env (compile_command env w) (written env w code))
         as [msg | pc] eqn:Hc.
  all: try (rewrite (route_compile_throws env body w code Ha Hw msg Hc);
            do 2 eexists; split; [done |]; by apply (CompilerThrows _ _ _ code)).
  all: destruct (compile_outcome (compile_command env w) pc) as [o | e] eqn:Ho.
  all: try (rewrite (route_compile_fails env body w code Ha Hw pc Hc e Ho);
            do 2 eexists; split; [done |]; by apply (CompileFails _ _ _ code)).
  all: assert (exists o, compile_outcome (compile_command env w) pc
                         = CompileSuccess o) as Hok by eauto.
  all: destruct (tools env (run_command env w) (leaves pc)) as [msg | pe] eqn:He.
  all: try (rewrite (route_run_throws env body w code Ha Hw pc Hc Hok msg He);
            do 2 eexists; split; [done |];
            by apply (RunnerThrows _ _ _ code pc o)).
  all: rewrite (route_executed env body w code Ha Hw pc Hc Hok pe He);
       do 2 eexists; split; [done |]; by apply (Executed _ _ _ code pc o).
Qed.

Lemma without_no_file (name : jsstring) (d : gmap jsstring entry)
    (c : jsstring) (m : Z) :
  without name d !! name <> Some (File c m).
Proof.
  unfold without. destruct (d !! name) as [[c' m' | m'] |] eqn:E.
  - by rewrite lookup_delete_eq.
  - by rewrite E.
  - by rewrite E.
Qed.

(** X8: a request hands to [exec] nothing, the [javac] command, or the
    [javac] command and then the [java] command; a response with status
    400 comes with none, a [success: true] response with both, and the
    [java] command is handed over only after a compilation that
    succeeded. *)
Theorem X8_route_spawns_in_order (env : Env) (body : gmap string value)
    (w : World) :
  exists r w' l,
    compile_route env body w = (Ok r, w') /\
    spawned w' = spawned w ++ l /\
    (l = [] \/ l = [compile_command env w] \/
     l = [compile_command env w; run_command env w]) /\
    (status r = 400 -> l = []) /\
    (prop "success" (payload r) = VBool true ->
     l = [compile_command env w; run_command env w]) /\
    (l = [compile_command env w; run_command env w] ->
     exists code pc output,
       accepted body code /\
       tools env (compile_command env w) (written env w code) = Spawned pc /\
       compile_outcome (compile_command env w) pc = CompileSuccess output).
Proof.
  destruct (route_ending env body w) as (r & w' & Hr & He).
  exists r, w'. destruct He.
  1-4: exists []; rewrite app_nil_r; repeat split; auto; done.
  1-2: exists [compile_command env w]; repeat split; auto; try done;
       intros [=]; done.
  1-2: exists [compile_command env w; run_command env w]; repeat split; auto;
       try done; intros _; eauto 8.
Qed.

(** X9: a response with status 200 and [success: false] always carries
    a formatted compilation error, and the request handed only the [javac]
    command to [exec]: the route answers with no other failure under
    status 200. *)
Theorem X9_failure_200_is_compile_error (env : Env) (body : gmap string value)
    (w : World) :
  exists r w',
    compile_route env body w = (Ok r, w') /\
    (status r = 200 -> prop "success" (payload r) = VBool false ->
     exists error,
       prop "output" (payload r) = VString (formatCompilationError error) /\
       spawned w' = spawned w ++ [compile_command env w]).
Proof.
  destruct (route_ending env body w) as (r & w' & Hr & He).
  exists r, w'. split; [done |]. destruct He; try done.
  intros _ _. eauto.
Qed.

(** X11: when a response with status 200 is returned the source file of
    the request is not in the scratch directory, and after a
    [success: true] response neither is a file [<name>.class]. *)
Theorem X11_response_200_leaves_no_file (env : Env) (body : gmap string value)
    (w : World) :
  exists r w',
    compile_route env body w = (Ok r, w') /\
    (status r = 200 ->
     forall c m,
       scratch w' !! javaFile env w <> Some (File c m) /\
       (prop "success" (payload r) = VBool true ->
        scratch w' !! classFile env w <> Some (File c m))).
Proof.
  destruct (route_ending env body w) as (r & w' & Hr & He).
  exists r, w'. split; [done |]. destruct He; try done; intros _ c m.
  - split; [apply without_no_file | done].
  - cbn [scratch]. split; [| intros _; apply without_no_file].
    rewrite without_other by (by apply not_eq_sym, javaFile_classFile).
    apply without_no_file.
Qed.

(** X12: the route itself creates, changes and deletes no entry of the
    scratch directory but [<name>.java] and [<name>.class]: an entry of
    another name that the tools leave alone is after the response what it
    was before. *)
Theorem X12_route_keeps_other_entries (env : Env) (body : gmap string value)
    (w : World) (name : jsstring) :
  name <> javaFile env w -> name <> classFile env w ->
  untouched_by (tools env) name ->
  exists r w',
    compile_route env body w = (Ok r, w') /\
    scratch w' !! name = scratch w !! name.
Proof.
  intros Hj Hc Htools.
  destruct (route_ending env body w) as (r & w' & Hr & He).
  exists r, w'. split; [done |].
  assert (forall code, written env w code !! name = scratch w !! name) as Hwr
    by (intros; unfold written; by rewrite lookup_insert_ne).
  destruct He; cbn [scratch]; rewrite ?without_other by done; try done;
    repeat match goal with
           | H : tools env _ _ = Spawned _ |- _ =>
               apply Htools in H; rewrite ?H; clear H
           end; done.
Qed.

Lemma X12_route_keeps_other_entries_witness :
  let env :=
    mkEnv (js "/tmp") (Example.tools_running Example.loops) (js "k3x9q2m1z") in
  let w := mkWorld {[ js "notes.txt" := File (js "kept") 5 ]} 1700000000000 [] in
  exists r w',
    compile_route env (Example.request (js "class Main { }")) w = (Ok r, w') /\
    scratch w' !! js "notes.txt" = Some (File (js "kept") 5).
Proof.
  intros env w.
  apply (X12_route_keeps_other_entries env
           (Example.request (js "class Main { }")) w (js "notes.txt")).
  - by vm_compute.
  - by vm_compute.
  - intros command d p. unfold env, tools, Example.tools_running, Example.loops.
    destruct (startsWith command (js "javac ")); by intros [= <-].
Defined.

(** ** Validation, Normalizer, Compiler, ArtifactStore *)

(** X13: a [code] of more than 10,000 code units is answered with
    [Code too long] in an unchanged world, whether or not a pattern of the
    denylist matches it: the length check comes before the scan. *)
Theorem X13_length_check_precedes_scan (env : Env) (body : gmap string value)
    (w : World) (code : jsstring) :
  body !! "code"%string = Some (VString code) ->
  10000 < Z.of_nat (length code) ->
  compile_route env body w = (Ok too_long, w).
Proof.
  intros Hbody Hlen. unfold compile_route, bind, Date_now, ret, field.
  rewrite Hbody. destruct code as [|c s]; [cbn in Hlen; lia |].
  cbn [truthy is_string typeof negb orb as_string].
  by rewrite (proj2 (Z.ltb_lt _ _) Hlen).
Qed.

Lemma X13_length_check_witness :
  let code := js "System.exit(0);" ++ replicate (Z.to_nat 10000) 32%N in
  containsMaliciousCode code = true /\
  compile_route Example.env0 (Example.request code) Example.w0
    = (Ok too_long, Example.w0).
Proof.
  intros code. split; [by vm_compute |].
  apply (X13_length_check_precedes_scan Example.env0 _ Example.w0 code).
  - apply lookup_singleton_eq.
  - by vm_compute.
Defined.

(** X3: [ensureMainClass] is idempotent, and [class Main] occurs in its
    result whatever the text. *)
Theorem X3_ensureMainClass_idempotent (code : jsstring) :
  ensureMainClass (ensureMainClass code) = ensureMainClass code /\
  occurs_in (js "class Main") (ensureMainClass code).
Proof.
  unfold ensureMainClass at 2 3 4.
  destruct (includes code (js "public class Main")
            || includes code (js "class Main")) eqn:E.
  - split; [unfold ensureMainClass; by rewrite E |].
    apply orb_true_iff in E as [E | E]; apply includes_spec in E; [| done].
    destruct E as (a & b & ->). exists (a ++ js "public "), b.
    by rewrite <- !app_assoc.
  - assert (occurs_in (js "public class Main")
              (wrapper_head ++ code ++ wrapper_tail)) as H.
    { exists [], (js " {" ++ LF
                    ++ js "    public static void main(String[] args) {"
                    ++ LF ++ js "        // User code starts here" ++ LF
                    ++ code ++ wrapper_tail).
      unfold wrapper_head. by rewrite <- !app_assoc. }
    split.
    + unfold ensureMainClass. by rewrite (proj2 (includes_spec _ _) H).
    + destruct H as (a & b & ->). exists (a ++ js "public "), b.
      by rewrite <- !app_assoc.
Qed.



(** X15: [cleanupFile] never throws; afterwards no regular file has the
    name, a directory of that name and every other entry are untouched,
    and a second call changes nothing. *)
Theorem X15_cleanupFile_removes_one_file (name : jsstring) (w : World) :
  exists w',
    cleanupFile name w = (Ok tt, w') /\
    clock w' = clock w /\ spawned w' = spawned w /\
    (forall c m, scratch w' !! name <> Some (File c m)) /\
    (forall m, scratch w !! name = Some (Dir m) -> scratch w' = scratch w) /\
    (forall other, other <> name -> scratch w' !! other = scratch w !! other) /\
    cleanupFile name w' = (Ok tt, w').
Proof.
  rewrite cleanupFile_spec. eexists. split; [done |].
  cbn [scratch clock spawned with_scratch]. repeat split.
  - intros c m. apply without_no_file.
  - intros m H. unfold without. by rewrite H.
  - intros other H. by apply without_other.
  - rewrite cleanupFile_spec. unfold with_scratch. cbn [scratch clock spawned].
    do 2 f_equal. unfold without at 1.
    destruct (without name (scratch w) !! name) as [[c m | m] |] eqn:E;
      [by apply without_no_file in E | done | done].
Qed.

(** ** Sweeps *)

Lemma sweep_spec (w : World) :
  exists w',
    cleanupTempFiles w = (Ok tt, w') /\
    clock w' = clock w /\ spawned w' = spawned w /\
    forall name, scratch w' !! name = scratch w !! name ≫= swept (clock w).
Proof.
  unfold cleanupTempFiles, try_catch, bind, readdirSync, Date_now.
  destruct (forEach_sweep_spec (clock w) (map_to_list (scratch w)).*1 w)
    as (d & Hrun & Hd).
  rewrite Hrun. exists (with_scratch d w). repeat split.
  intros name. cbn [scratch with_scratch]. rewrite Hd.
  case_decide as Hin; [done |].
  destruct (scratch w !! name) as [e |] eqn:E; [| done].
  destruct Hin. apply list_elem_of_fmap. exists (name, e).
  split; [done |]. by apply elem_of_map_to_list.
Qed.

(** X16: a sweep adds and changes nothing, and after it no regular file
    of the scratch directory is older than [maxAge]. *)
Theorem X16_sweep_leaves_only_recent_files (w : World) :
  exists w',
    cleanupTempFiles w = (Ok tt, w') /\
    scratch w' ⊆ scratch w /\
    forall name c m,
      scratch w' !! name = Some (File c m) -> clock w - m <= maxAge.
Proof.
  destruct (sweep_spec w) as (w' & Hrun & _ & _ & Hd).
  exists w'. split; [done |]. split.
  - apply map_subseteq_spec. intros name e. rewrite Hd.
    destruct (scratch w !! name) as [[c m | m] |]; cbn; [| done | done].
    by destruct (clock w - m >? maxAge).
  - intros name c m. rewrite Hd.
    destruct (scratch w !! name) as [[c' m' | m'] |]; cbn; [| done | done].
    destruct (clock w - m' >? maxAge) eqn:E; [done |]. intros [= _ <-].
    rewrite Z.gtb_ltb in E. by apply Z.ltb_ge in E.
Qed.

(** X17: a sweep followed by a sweep at a later (or the same) time
    leaves the scratch directory as the later sweep alone would: a sweep
    is idempotent, and a missed sweep is made up for by the next. *)
Theorem X17_later_sweep_subsumes_earlier (w : World) (later : Z) :
  clock w <= later ->
  exists w1 w2 w3,
    cleanupTempFiles w = (Ok tt, w1) /\
    cleanupTempFiles (at_time later w1) = (Ok tt, w2) /\
    cleanupTempFiles (at_time later w) = (Ok tt, w3) /\
    scratch w2 = scratch w3.
Proof.
  intros Hlater.
  destruct (sweep_spec w) as (w1 & Hrun1 & _ & _ & Hd1).
  destruct (sweep_spec (at_time later w1)) as (w2 & Hrun2 & _ & _ & Hd2).
  destruct (sweep_spec (at_time later w)) as (w3 & Hrun3 & _ & _ & Hd3).
  exists w1, w2, w3. repeat split; try done.
  apply map_eq. intros name. rewrite Hd2, Hd3. cbn [scratch clock at_time].
  rewrite Hd1. destruct (scratch w !! name) as [[c m | m] |]; cbn; try done.
  destruct (clock w - m >? maxAge) eqn:E1; cbn; [| done].
  apply Z.gtb_lt in E1.
  destruct (later - m >? maxAge) eqn:E2; [done |].
  rewrite Z.gtb_ltb in E2. apply Z.ltb_ge in E2. lia.
Qed.

Lemma X17_later_sweep_witness :
  let w :=
    mkWorld {[ js "old.java" := File [] 0; js "new.java" := File [] 400000 ]}
      350000 [] in
  exists w1 w2 w3,
    cleanupTempFiles w = (Ok tt, w1) /\
    cleanupTempFiles (at_time 500000 w1) = (Ok tt, w2) /\
    cleanupTempFiles (at_time 500000 w) = (Ok tt, w3) /\
    scratch w2 = scratch w3.
Proof.
  intros w. apply (X17_later_sweep_subsumes_earlier w 500000). by vm_compute.
Defined.

(** ** Allocation of names *)

Lemma js_inj (s t : string) : js s = js t -> s = t.
Proof.
  unfold js. intros H.
  rewrite <- (string_of_list_ascii_of_string s),
    <- (string_of_list_ascii_of_string t). f_equal.
  revert H. generalize (list_ascii_of_string t).
  induction (list_ascii_of_string s) as [|a l IH]; intros [|b l']; cbn;
    try done.
  intros [= Hab Hl]. f_equal; [| by apply IH].
  by rewrite <- (ascii_N_embedding a), <- (ascii_N_embedding b), Hab.
Qed.

Lemma dec_inj (a b : Z) : dec a = dec b -> a = b.
Proof.
  unfold dec. intros H%js_inj. apply DecimalZ.to_int_inj.
  assert (forall z, Z.to_int z <> Decimal.Pos Decimal.Nil /\
                    Z.to_int z <> Decimal.Neg Decimal.Nil) as Hnn.
  { intros [|p|p]; cbn; split; try done;
      intros [= E]; by apply DecimalPos.Unsigned.to_uint_nonnil in E. }
  destruct (Hnn a) as [Ha1 Ha2], (Hnn b) as [Hb1 Hb2].
  pose proof (NilZero.isi _ Ha1 Ha2) as Ea.
  pose proof (NilZero.isi _ Hb1 Hb2) as Eb.
  rewrite H in Ea. congruence.
Qed.

Lemma uint_no_underscore (d : Decimal.uint) :
  95%N ∉ js (NilEmpty.string_of_uint d).
Proof.
  induction d; cbn; [apply not_elem_of_nil | ..];
    (intros [H | H]%elem_of_cons; [done | by apply IHd]).
Qed.

Lemma dec_no_underscore (a : Z) : 95%N ∉ dec a.
Proof.
  unfold dec.
  assert (forall d, 95%N ∉ js (NilZero.string_of_uint d)) as Hu.
  { intros d. destruct d; try apply uint_no_underscore.
    cbn. by intros [H | H%elem_of_nil]%elem_of_cons. }
  destruct (Z.to_int a) as [d | d]; cbn [NilZero.string_of_int]; [apply Hu |].
  change (js (String "-" (NilZero.string_of_uint d)))
    with (45%N :: js (NilZero.string_of_uint d)).
  intros [H | H]%elem_of_cons; [done | by apply (Hu d)].
Qed.

Lemma split_at_first (x : N) (a a' b b' : jsstring) :
  x ∉ a -> x ∉ a' -> a ++ x :: b = a' ++ x :: b' -> a = a' /\ b = b'.
Proof.
  revert a'. induction a as [|c a IH]; intros [|c' a'] Ha Ha'; cbn.
  - by intros [= ->].
  - intros [= <- _]. destruct Ha'. by left.
  - intros [= -> _]. destruct Ha. by left.
  - intros [= -> H]. apply IH in H as [-> ->]; [done | |].
    + intros ?. apply Ha. by right.
    + intros ?. apply Ha'. by right.
Qed.

(** X19: two requests are allocated the same name only when they read
    the same clock value and drew the same random text. *)
Theorem X19_allocate_injective (env env' : Env) (now now' : Z) :
  allocate env now = allocate env' now' ->
  now = now' /\ random36 env = random36 env'.
Proof.
  unfold allocate. intros H. apply app_inv_head in H.
  change (js "_" ++ random36 env) with (95%N :: random36 env) in H.
  change (js "_" ++ random36 env') with (95%N :: random36 env') in H.
  apply split_at_first in H as [H1 H2]; try apply dec_no_underscore.
  split; [by apply dec_inj | done].
Qed.

Lemma X19_allocate_injective_witness :
  1700000000000 = 1700000000000 /\ js "k3x9q2m1z" = js "k3x9q2m1z".
Proof.
  apply (X19_allocate_injective Example.env0
           (mkEnv (js "/var") Example.tools_unavailable (js "k3x9q2m1z"))
           1700000000000 1700000000000).
  reflexivity.
Defined.

(** ** The page and the route *)

(** X20: the body that [runCode] sends carries the trimmed text of the
    editor, which is not empty, so the route never answers it with
    [No code provided]; and the dialog about the missing class is shown
    for exactly the codes that [ensureMainClass] wraps. *)
Theorem X20_sent_code_is_never_missing (text : jsstring) (a : answers)
    (body : gmap string value) :
  runCode_request false text a = Sent body ->
  exists code,
    body !! "code"%string = Some (VString code) /\
    code = trim text /\ code <> [] /\
    (asks_about_class code = true <-> ensureMainClass code <> code) /\
    forall env w,
      exists r w', compile_route env body w = (Ok r, w') /\ r <> no_code.
Proof.
  unfold runCode_request. destruct (trim text) as [|c s] eqn:Ht; [done |].
  cbn [truthy negb].
  destruct (asks_about_class (c :: s) && negb (run_without_class a)); [done |].
  destruct (asks_about_main (c :: s) && negb (run_without_main a)); [done |].
  intros [= Hb]. exists (c :: s).
  assert (body !! "code"%string = Some (VString (c :: s))) as Hl
    by (rewrite <- Hb; apply lookup_insert_eq).
  split; [exact Hl |]. split; [done |]. split; [done |]. split.
  - unfold asks_about_class, ensureMainClass.
    rewrite <- negb_orb.
    destruct (includes (c :: s) (js "public class Main")
              || includes (c :: s) (js "class Main")); cbn [negb].
    + split; [done | by intros H].
    + split; [| done]. intros _ H. apply (f_equal length) in H.
      rewrite !length_app in H. cbn in H. lia.
  - intros env w.
    destruct (route_ending env body w) as (r & w' & Hr & He).
    exists r, w'. split; [exact Hr |]. destruct He; try done.
    unfold field in H. rewrite Hl in H. done.
Qed.

Lemma X20_sent_code_witness :
  exists code,
    (<["code"%string := VString (js "class Main { public static void main(String[] a) { } }")]>
       (<["language"%string := VString (js "java")]>
          {[ "version"%string := VString (js "17") ]}) : gmap string value)
      !! "code"%string = Some (VString code) /\
    code = trim (js "  class Main { public static void main(String[] a) { } }  ")
    /\ code <> [] /\
    (asks_about_class code = true <-> ensureMainClass code <> code) /\
    forall env w,
      exists r w',
        compile_route env
          (<["code"%string := VString (js "class Main { public static void main(String[] a) { } }")]>
             (<["language"%string := VString (js "java")]>
                {[ "version"%string := VString (js "17") ]})) w = (Ok r, w') /\
        r <> no_code.
Proof.
  apply (X20_sent_code_is_never_missing
           (js "  class Main { public static void main(String[] a) { } }  ")
           (mkAnswers false false)).
  reflexivity.
Defined.

Lemma formatted_text_starts (error : jsstring) :
  exists rest, formatCompilationError error = 10060%N :: rest.
Proof. eexists. reflexivity. Qed.

(** X21: the page can present every response of the route: for status
    200 it shows the [output], as a success or as a failed compilation;
    for status 400 and 500 it shows [Server Error: ] and the [error] of
    the response (or [Unknown error] if that is empty), never the
    [output]. *)
Theorem X21_every_response_is_presented (env : Env) (body : gmap string value)
    (w : World) :
  exists r w' d,
    compile_route env body w = (Ok r, w') /\
    present r = Some d /\
    (status r = 200 ->
     exists t,
       prop "output" (payload r) = VString t /\ shown d = t /\
       ((prop "success" (payload r) = VBool true /\ kind d = "success"%string)
        \/ (prop "success" (payload r) = VBool false /\
            kind d = "error"%string /\
            status_text d = js "Compilation failed"))) /\
    (status r <> 200 ->
     exists e,
       prop "error" (payload r) = VString e /\
       shown d =
         cross_mark ++ js " Server Error: " ++
         or_else e (js "Unknown error") ++ LF ++ LF ++ js "Try again later." /\
       status_text d = js "Server error").
Proof.
  destruct (route_ending env body w) as (r & w' & Hr & He).
  exists r, w'.
  assert (forall message,
            exists d, present (server_error message) = Some d /\
              shown d = cross_mark ++ js " Server Error: " ++
                or_else message (js "Unknown error") ++ LF ++ LF ++
                js "Try again later." /\
              status_text d = js "Server error") as Hserver.
  { intros message. eexists. split; [reflexivity |]. split; [| done].
    by destruct message. }
  destruct He.
  1-3: eexists; split; [done |]; split; [reflexivity |]; split; [done |];
       intros _; eexists; split; [reflexivity |]; split; reflexivity.
  1-2, 4: match goal with
          | |- context [server_error ?msg] =>
              destruct (Hserver msg) as (d & Hd & Hs & Ht)
          end;
          exists d; split; [done |]; split; [done |]; split; [done |];
          intros _; eauto.
  - match goal with
    | |- context [formatCompilationError ?e] =>
        destruct (formatted_text_starts e) as [rest Hf];
        eexists; split; [done |]; split;
        [unfold present, ok_response; cbn -[formatCompilationError];
         rewrite Hf; reflexivity |];
        split; [| done]; intros _; exists (formatCompilationError e);
        split; [done |]; split; [by rewrite Hf | right; done]
    end.
  - eexists. split; [done |]. split; [reflexivity |]. split; [| done].
    intros _. eexists. split; [reflexivity |]. split; [done | left; done].
Qed.
